(** * The request pipeline of the oanda client

    A shallow embedding of the core of package [oanda] (request modifiers,
    [Client], [PollRequest], [ApiError] and [requestAndDecode]) together with
    the fragments of [net/textproto], [net/http], [net/url] and
    [encoding/json] that this code calls.

    Go strings are byte sequences: they are modelled by [string] (a list of
    [ascii], one per byte).  [http.Header] and [url.Values] are Go maps from
    strings to string slices: they are modelled by [gmap string (list string)].
    The remote side is reached only through [http.Client.Do]; it is a function
    on an abstract [World], and every dispatched request is recorded. *)

From Stdlib Require Import ZArith String Ascii List DecimalString.
From stdpp Require Import gmap strings list sorting.

Local Open Scope Z_scope.
Local Set Warnings "-register-all".
Local Set Warnings "-notation-overridden".

(** ** Bytes *)

Definition byte_in (lo hi : nat) (c : ascii) : bool :=
  let n := nat_of_ascii c in ((lo <=? n) && (n <=? hi))%nat.

Definition isLower (c : ascii) : bool := byte_in 97 122 c.
Definition isUpper (c : ascii) : bool := byte_in 65 90 c.
Definition isDigit (c : ascii) : bool := byte_in 48 57 c.
Definition isAlnum (c : ascii) : bool := isLower c || isUpper c || isDigit c.

(** [c - ('a' - 'A')] and [c + ('a' - 'A')] on a byte. *)
Definition toUpperByte (c : ascii) : ascii := ascii_of_nat (nat_of_ascii c - 32).
Definition toLowerByte (c : ascii) : ascii := ascii_of_nat (nat_of_ascii c + 32).

Fixpoint string_forall (p : ascii -> bool) (s : string) : bool :=
  match s with
  | EmptyString => true
  | String c s' => p c && string_forall p s'
  end.

Fixpoint string_mem (c : ascii) (s : string) : bool :=
  match s with
  | EmptyString => false
  | String d s' => Ascii.eqb c d || string_mem c s'
  end.

Fixpoint string_drop (n : nat) (s : string) : string :=
  match n, s with
  | O, _ => s
  | S _, EmptyString => EmptyString
  | S n', String _ s' => string_drop n' s'
  end.

(** The double quote, byte 34. *)
Definition dquote : ascii := "034"%char.

(** ** net/textproto: canonical header keys *)

Module textproto.

(** [validHeaderFieldByte]: the token bytes of RFC 7230. *)
Definition validHeaderFieldByte (c : ascii) : bool :=
  isAlnum c || string_mem c "!#$%&'*+-.^_`|~".

(** The loop of [canonicalMIMEHeaderKey]: upper case for the first letter and
    for a letter after a dash, lower case elsewhere. *)
Fixpoint canonicalize (upper : bool) (s : string) : string :=
  match s with
  | EmptyString => EmptyString
  | String c s' =>
      let c' :=
        if upper && isLower c then toUpperByte c
        else if negb upper && isUpper c then toLowerByte c
        else c in
      String c' (canonicalize (Ascii.eqb c' "-") s')
  end.

(** [CanonicalMIMEHeaderKey]: a key holding a byte that is no token byte (a
    space too) is returned as it is. *)
Definition CanonicalMIMEHeaderKey (s : string) : string :=
  if string_forall validHeaderFieldByte s then canonicalize true s else s.

End textproto.

(** ** net/http: headers, requests, responses *)

(** [type Header map[string][]string]. *)
Abbreviation Header := (gmap string (list string)).

Module Hdr.

(** [Header.Get]: the first value stored under the canonical key, or the
    empty string. *)
Definition Get (h : Header) (key : string) : string :=
  match h !! textproto.CanonicalMIMEHeaderKey key with
  | Some (v :: _) => v
  | _ => EmptyString
  end.

(** [Header.Set]: the canonical key is bound to the single value. *)
Definition Set_ (h : Header) (key value : string) : Header :=
  <[textproto.CanonicalMIMEHeaderKey key := [value]]> h.

End Hdr.

(** [url.URL]. *)
Record URL := mkURL {
  Scheme : string;
  Opaque : string;
  User : option (string * option string);
  Host : string;
  Path : string;
  RawQuery : string;
  Fragment : string
}.

(** [http.Request], the fields this package and [http.NewRequest] touch.
    [Body] is [None] for a nil body and holds the bytes to send otherwise. *)
Record Request := mkRequest {
  Method : string;
  ReqURL : URL;
  ReqHeader : Header;
  Body : option string;
  ContentLength : Z;
  ReqHost : string
}.

(** An [io.ReadCloser] over a finite stream: the bytes not yet read, and
    whether [Close] has been called. *)
Record ReadCloser := mkReadCloser {
  unread : string;
  closed : bool
}.

(** [http.Response]. *)
Record Response := mkResponse {
  StatusCode : Z;
  RspHeader : Header;
  RspBody : ReadCloser
}.

(** ** net/url: form values *)

(** [type Values map[string][]string]. *)
Abbreviation Values := (gmap string (list string)).

Module url.

(** [shouldEscape(c, encodeQueryComponent)]: letters, digits and the marks
    [-_.~] are kept, every other byte is escaped. *)
Definition shouldEscape (c : ascii) : bool :=
  negb (isAlnum c || string_mem c "-_.~").

Definition upperhex : string := "0123456789ABCDEF".

Definition hexDigit (n : nat) : ascii :=
  match String.get n upperhex with
  | Some c => c
  | None => "0"%char
  end.

(** [QueryEscape]: a space becomes [+], any other escaped byte becomes [%XX]. *)
Fixpoint QueryEscape (s : string) : string :=
  match s with
  | EmptyString => EmptyString
  | String c s' =>
      if Ascii.eqb c " " then String "+" (QueryEscape s')
      else if shouldEscape c then
        String "%" (String (hexDigit (nat_of_ascii c / 16))
                      (String (hexDigit (nat_of_ascii c mod 16)) (QueryEscape s')))
      else String c (QueryEscape s')
  end.

(** The bytewise order of Go strings. *)
Definition string_le (a b : string) : Prop := String.leb a b = true.

#[global] Instance string_le_dec : RelDecision string_le.
Proof. intros a b. unfold string_le. apply _. Defined.

(** The keys of a map in the order of [sort.Strings]. *)
Definition sortedKeys (v : Values) : list string :=
  merge_sort string_le (map fst (map_to_list v)).

(** One round of the inner loop of [Values.Encode]. *)
Definition writePair (keyEscaped : string) (buf : string) (val : string) : string :=
  (if (0 <? String.length buf)%nat then buf +:+ "&" else buf)
    +:+ keyEscaped +:+ "=" +:+ QueryEscape val.

(** [Values.Encode]: [key=value] pairs joined by [&], keys sorted, the values
    of one key in their order. *)
Definition Encode (v : Values) : string :=
  fold_left
    (fun buf k => fold_left (writePair (QueryEscape k)) (default [] (v !! k)) buf)
    (sortedKeys v) EmptyString.

End url.

(** ** encoding/json: a decoder for one value of a stream

    The scanner accepts the JSON grammar and stops after the first value, as
    [Decoder.Decode] does. Two simplifications: the bytes of a string literal
    are copied as they are (Go replaces ill-formed UTF-8 by U+FFFD), and field
    names are matched up to the case of ASCII letters only. *)

Module json.

Inductive value :=
| Null
| Bool (b : bool)
| Number (lit : string)
| Str (s : string)
| Array (elems : list value)
| Object (members : list (string * value)).

(** The errors [Decoder.Decode] reports: [io.EOF] on a stream with no value,
    [io.ErrUnexpectedEOF] on a stream that ends inside a value,
    [*SyntaxError], and [*UnmarshalTypeError] with the JSON kind met and the
    Go type that could not take it. *)
Inductive error :=
| EOF
| ErrUnexpectedEOF
| SyntaxError
| UnmarshalTypeError (Value : string) (GoType : string).

(** Result of scanning a prefix of the input. *)
Inductive scan (A : Type) :=
| Scanned (a : A) (rest : string)
| Short
| Bad.
Arguments Scanned {A} a rest.
Arguments Short {A}.
Arguments Bad {A}.

Definition andThen {A B : Type} (p : scan A) (k : A -> string -> scan B) : scan B :=
  match p with
  | Scanned a rest => k a rest
  | Short => Short
  | Bad => Bad
  end.

Definition isSpace (c : ascii) : bool :=
  let n := nat_of_ascii c in
  ((n =? 32) || (n =? 9) || (n =? 13) || (n =? 10))%nat.

Fixpoint skipSpace (s : string) : string :=
  match s with
  | EmptyString => s
  | String c s' => if isSpace c then skipSpace s' else s
  end.

(** The next byte that is no white space. *)
Definition next {B : Type} (s : string) (k : ascii -> string -> scan B) : scan B :=
  match skipSpace s with
  | EmptyString => Short
  | String c rest => k c rest
  end.

(** The rest of a literal ([true], [false], [null]). *)
Fixpoint expect (lit s : string) : scan unit :=
  match lit with
  | EmptyString => Scanned tt s
  | String c lit' =>
      match s with
      | EmptyString => Short
      | String d s' => if Ascii.eqb c d then expect lit' s' else Bad
      end
  end.

Fixpoint digits (s : string) : string * string :=
  match s with
  | EmptyString => (EmptyString, EmptyString)
  | String c s' =>
      if isDigit c then let '(ds, rest) := digits s' in (String c ds, rest)
      else (EmptyString, s)
  end.

(** At least one digit. *)
Definition digits1 (s : string) : scan string :=
  match digits s with
  | (EmptyString, EmptyString) => Short
  | (EmptyString, _) => Bad
  | (ds, rest) => Scanned ds rest
  end.

Definition exponent (lit s : string) : scan string :=
  match s with
  | String c s' =>
      if Ascii.eqb c "e" || Ascii.eqb c "E" then
        let '(sign, s'') :=
          match s' with
          | String d t => if Ascii.eqb d "+" || Ascii.eqb d "-" then (String d EmptyString, t) else (EmptyString, s')
          | EmptyString => (EmptyString, s')
          end in
        andThen (digits1 s'') (fun ds rest => Scanned (lit +:+ String c sign +:+ ds) rest)
      else Scanned lit s
  | EmptyString => Scanned lit s
  end.

Definition fraction (lit s : string) : scan string :=
  match s with
  | String c s' =>
      if Ascii.eqb c "." then
        andThen (digits1 s') (fun ds rest => exponent (lit +:+ "." +:+ ds) rest)
      else exponent lit s
  | EmptyString => Scanned lit s
  end.

(** A number literal: an optional minus sign, then 0 or a digit 1-9 followed
    by digits, then an optional fraction (a dot and digits) and an optional
    exponent (e or E, an optional sign, digits). *)
Definition number (s : string) : scan string :=
  let '(sign, s1) :=
    match s with
    | String c t => if Ascii.eqb c "-" then ("-"%string, t) else (EmptyString, s)
    | EmptyString => (EmptyString, s)
    end in
  match s1 with
  | EmptyString => Short
  | String c s2 =>
      if Ascii.eqb c "0" then fraction (sign +:+ "0") s2
      else if isDigit c then
        let '(ds, s3) := digits s2 in fraction (sign +:+ String c ds) s3
      else Bad
  end.

Definition hexval (c : ascii) : option Z :=
  let n := Z.of_nat (nat_of_ascii c) in
  if isDigit c then Some (n - 48)
  else if byte_in 97 102 c then Some (n - 87)
  else if byte_in 65 70 c then Some (n - 55)
  else None.

Definition isHex (c : ascii) : bool :=
  match hexval c with Some _ => true | None => false end.

(** [getu4]: the four hexadecimal digits of a [\u] escape. *)
Definition getu4 (s : string) : scan Z :=
  match s with
  | String a (String b (String c (String d rest))) =>
      match hexval a, hexval b, hexval c, hexval d with
      | Some x, Some y, Some z, Some w => Scanned (((x * 16 + y) * 16 + z) * 16 + w) rest
      | _, _, _, _ => Bad
      end
  | _ => if string_forall isHex s then Short else Bad
  end.

Definition byteZ (z : Z) : ascii := ascii_of_nat (Z.to_nat z).

(** [utf8.EncodeRune]. *)
Definition EncodeRune (r : Z) : string :=
  if r <? 128 then String (byteZ r) EmptyString
  else if r <? 2048 then
    String (byteZ (192 + r / 64)) (String (byteZ (128 + r mod 64)) EmptyString)
  else if r <? 65536 then
    String (byteZ (224 + r / 4096))
      (String (byteZ (128 + (r / 64) mod 64)) (String (byteZ (128 + r mod 64)) EmptyString))
  else
    String (byteZ (240 + r / 262144))
      (String (byteZ (128 + (r / 4096) mod 64))
         (String (byteZ (128 + (r / 64) mod 64)) (String (byteZ (128 + r mod 64)) EmptyString))).

Definition ReplacementChar : Z := 65533.

(** [utf16.IsSurrogate] and [utf16.DecodeRune]. *)
Definition IsSurrogate (r : Z) : bool := (55296 <=? r) && (r <? 57344).

Definition DecodeRune (r1 r2 : Z) : Z :=
  if (55296 <=? r1) && (r1 <? 56320) && (56320 <=? r2) && (r2 <? 57344)
  then (r1 - 55296) * 1024 + (r2 - 56320) + 65536
  else ReplacementChar.

Definition simpleEscape (c : ascii) : option ascii :=
  if Ascii.eqb c dquote then Some dquote
  else if Ascii.eqb c "\" then Some "\"%char
  else if Ascii.eqb c "/" then Some "/"%char
  else if Ascii.eqb c "b" then Some "008"%char
  else if Ascii.eqb c "f" then Some "012"%char
  else if Ascii.eqb c "n" then Some "010"%char
  else if Ascii.eqb c "r" then Some "013"%char
  else if Ascii.eqb c "t" then Some "009"%char
  else None.

(** The second half of a surrogate pair, when a [\uXXXX] escape follows. *)
Definition lowSurrogate (s : string) : option (Z * string) :=
  match s with
  | String a (String b t) =>
      if Ascii.eqb a "\" && Ascii.eqb b "u" then
        match getu4 t with
        | Scanned r2 rest => Some (r2, rest)
        | _ => None
        end
      else None
  | _ => None
  end.

(** A string literal after its opening quote, unquoted: escapes are replaced,
    a [\u] escape by the UTF-8 bytes of its rune (of the pair's rune for a
    surrogate pair, of U+FFFD for a lone surrogate); control bytes are
    refused; other bytes are copied. *)
Fixpoint stringLit (fuel : nat) (s acc : string) : scan string :=
  match fuel with
  | O => Bad
  | S f =>
      match s with
      | EmptyString => Short
      | String c s' =>
          if Ascii.eqb c dquote then Scanned acc s'
          else if Ascii.eqb c "\" then
            match s' with
            | EmptyString => Short
            | String e s'' =>
                if Ascii.eqb e "u" then
                  andThen (getu4 s'') (fun r rest =>
                    if IsSurrogate r then
                      match lowSurrogate rest with
                      | Some (r2, rest2) =>
                          if DecodeRune r r2 =? ReplacementChar
                          then stringLit f rest (acc +:+ EncodeRune ReplacementChar)
                          else stringLit f rest2 (acc +:+ EncodeRune (DecodeRune r r2))
                      | None => stringLit f rest (acc +:+ EncodeRune ReplacementChar)
                      end
                    else stringLit f rest (acc +:+ EncodeRune r))
                else
                  match simpleEscape e with
                  | Some x => stringLit f s'' (acc +:+ String x EmptyString)
                  | None => Bad
                  end
            end
          else if (nat_of_ascii c <? 32)%nat then Bad
          else stringLit f s' (acc +:+ String c EmptyString)
      end
  end.

Definition quoted (s : string) : scan string :=
  stringLit (S (String.length s)) s EmptyString.

(** One JSON value at the front of the input; the bytes after it are left. *)
Fixpoint scanValue (fuel : nat) (s : string) : scan value :=
  match fuel with
  | O => Bad
  | S f =>
      next s (fun c rest =>
        if Ascii.eqb c "{" then
          next rest (fun d rest' =>
            if Ascii.eqb d "}" then Scanned (Object []) rest'
            else scanMembers f rest [])
        else if Ascii.eqb c "[" then
          next rest (fun d rest' =>
            if Ascii.eqb d "]" then Scanned (Array []) rest'
            else scanElements f rest [])
        else if Ascii.eqb c dquote then
          andThen (quoted rest) (fun x r => Scanned (Str x) r)
        else if Ascii.eqb c "t" then
          andThen (expect "rue" rest) (fun _ r => Scanned (Bool true) r)
        else if Ascii.eqb c "f" then
          andThen (expect "alse" rest) (fun _ r => Scanned (Bool false) r)
        else if Ascii.eqb c "n" then
          andThen (expect "ull" rest) (fun _ r => Scanned Null r)
        else if Ascii.eqb c "-" || isDigit c then
          andThen (number (String c rest)) (fun lit r => Scanned (Number lit) r)
        else Bad)
  end
with scanElements (fuel : nat) (s : string) (acc : list value) : scan value :=
  match fuel with
  | O => Bad
  | S f =>
      andThen (scanValue f s) (fun v r =>
        next r (fun d r' =>
          if Ascii.eqb d "," then scanElements f r' (acc ++ [v])
          else if Ascii.eqb d "]" then Scanned (Array (acc ++ [v])) r'
          else Bad))
  end
with scanMembers (fuel : nat) (s : string) (acc : list (string * value)) : scan value :=
  match fuel with
  | O => Bad
  | S f =>
      next s (fun c rest =>
        if Ascii.eqb c dquote then
          andThen (quoted rest) (fun k r =>
            next r (fun d r' =>
              if Ascii.eqb d ":" then
                andThen (scanValue f r') (fun v r2 =>
                  next r2 (fun e r3 =>
                    if Ascii.eqb e "," then scanMembers f r3 (acc ++ [(k, v)])
                    else if Ascii.eqb e "}" then Scanned (Object (acc ++ [(k, v)])) r3
                    else Bad))
              else Bad))
        else Bad)
  end.

(** [Decoder.readValue] on a stream holding [s]: the first value, whatever
    follows it. *)
Definition readValue (s : string) : value + error :=
  match scanValue (2 * String.length s + 2) s with
  | Scanned v _ => inl v
  | Short =>
      inr (match skipSpace s with EmptyString => EOF | _ => ErrUnexpectedEOF end)
  | Bad => inr SyntaxError
  end.

(** [strconv.ParseInt(lit, 10, 64)] on a number literal. *)
Fixpoint digitsValue (s : string) (acc : Z) : option Z :=
  match s with
  | EmptyString => Some acc
  | String c s' =>
      if isDigit c then digitsValue s' (acc * 10 + (Z.of_nat (nat_of_ascii c) - 48))
      else None
  end.

Definition ParseInt64 (lit : string) : option Z :=
  let '(neg, ds) :=
    match lit with
    | String c t => if Ascii.eqb c "-" then (true, t) else (false, lit)
    | EmptyString => (false, lit)
    end in
  match ds with
  | EmptyString => None
  | _ =>
      match digitsValue ds 0 with
      | Some n =>
          let z := if neg then - n else n in
          if (- 2 ^ 63 <=? z) && (z <? 2 ^ 63) then Some z else None
      | None => None
      end
  end.

(** The JSON kind named in an [UnmarshalTypeError]. *)
Definition kindOf (v : value) : string :=
  match v with
  | Null => "null"
  | Bool _ => "bool"
  | Number _ => "number"
  | Str _ => "string"
  | Array _ => "array"
  | Object _ => "object"
  end.

(** [decodeState.saveError]: the first error is the one reported. *)
Definition saveError (saved new : option error) : option error :=
  match saved with
  | Some _ => saved
  | None => new
  end.

(** Field names are matched exactly first, then without regard to the case of
    ASCII letters. *)
Fixpoint lowerASCII (s : string) : string :=
  match s with
  | EmptyString => EmptyString
  | String c s' => String (if isUpper c then toLowerByte c else c) (lowerASCII s')
  end.

Definition equalFold (a b : string) : bool := String.eqb (lowerASCII a) (lowerASCII b).

Definition findField {F : Type} (name : F -> string) (fields : list F) (key : string) : option F :=
  match List.find (fun f => String.eqb (name f) key) fields with
  | Some f => Some f
  | None => List.find (fun f => equalFold (name f) key) fields
  end.

(** What [Unmarshal] does with a value for a Go type: the target after the
    call and the error returned. *)
Class Unmarshaler (T : Type) := unmarshal : value -> T -> T * option error.

(** [Decoder.Decode(v)] on a fresh decoder over a stream holding [s]. *)
Definition Decode {T : Type} `{Unmarshaler T} (s : string) (v : T) : T * option error :=
  match readValue s with
  | inl jv => unmarshal jv v
  | inr e => (v, Some e)
  end.

End json.

(** * Package oanda *)

(** [type Id uint64]. *)
Definition Id := N.

(** ** Request modifiers *)

(** The four implementations of [requestModifier], each a Go string type. *)
Inductive requestModifier :=
| TokenAuthenticator (a : string)
| Environment (e : string)
| DateFormat (d : string)
| ContentType (c : string).

Definition defaultDateFormat : requestModifier := DateFormat "UNIX".
Definition defaultContentType : requestModifier :=
  ContentType "application/x-www-form-urlencoded".

(** Assignments to [req.Header], [req.URL.Scheme] and [req.URL.Host]. *)
Definition withHeader (req : Request) (h : Header) : Request :=
  mkRequest (Method req) (ReqURL req) h (Body req) (ContentLength req) (ReqHost req).

Definition withScheme (u : URL) (scheme : string) : URL :=
  mkURL scheme (Opaque u) (User u) (Host u) (Path u) (RawQuery u) (Fragment u).

Definition withHost (u : URL) (host : string) : URL :=
  mkURL (Scheme u) (Opaque u) (User u) host (Path u) (RawQuery u) (Fragment u).

Definition withURL (req : Request) (u : URL) : Request :=
  mkRequest (Method req) u (ReqHeader req) (Body req) (ContentLength req) (ReqHost req).

(** The [modify] method of each modifier. *)
Definition modify (m : requestModifier) (req : Request) : Request :=
  match m with
  | TokenAuthenticator a =>
      withHeader req (Hdr.Set_ (ReqHeader req) "Authorization" ("Bearer " +:+ a))
  | Environment e =>
      let u := withScheme (ReqURL req) "https" in
      withURL req
        (if String.eqb (Host u) EmptyString
         then withHost u ("api-" +:+ e +:+ ".oanda.com")
         else u)
  | DateFormat d =>
      withHeader req (Hdr.Set_ (ReqHeader req) "X-Accept-Datetime-Format" d)
  | ContentType c =>
      match Body req with
      | Some _ => withHeader req (Hdr.Set_ (ReqHeader req) "Content-Type" c)
      | None => req
      end
  end.

Definition hasBody (body : option string) : bool :=
  match body with
  | Some _ => true
  | None => false
  end.

(** The effect each modifier is documented to have on the headers of a
    request, as the specification words it: the token authenticator sets an
    authorization header, the date format sets the header that declares the
    date encoding, the content type sets a content-type header only when the
    request carries a body, the environment sets no header. *)
Definition headerWrite (withBody : bool) (m : requestModifier) : option (string * string) :=
  match m with
  | TokenAuthenticator a => Some ("Authorization"%string, "Bearer " +:+ a)
  | Environment _ => None
  | DateFormat d => Some ("X-Accept-Datetime-Format"%string, d)
  | ContentType c => if withBody then Some ("Content-Type"%string, c) else None
  end.

(** Last writer wins: of a sequence of header writes, the value under [key] is
    the one of the last write to [key]. *)
Fixpoint lastWriter (key : string) (writes : list (string * string)) : option string :=
  match writes with
  | [] => None
  | (k, v) :: rest =>
      match lastWriter key rest with
      | Some v' => Some v'
      | None => if String.eqb k key then Some v else None
      end
  end.

(** ** ApiError *)

Record ApiError := mkApiError {
  Code : Z;
  Message : string;
  MoreInfo : string
}.

(** [%d] of an [int]. *)
Definition itoa (z : Z) : string := NilZero.string_of_int (Z.to_int z).

(** The method [Error] of [*ApiError]. *)
Definition ApiError_Error (ae : ApiError) : string :=
  "ApiError{Code: " +:+ itoa (Code ae) +:+ ", Message: " +:+ Message ae
    +:+ ", Moreinfo: " +:+ MoreInfo ae +:+ "}".

(** The fields of [ApiError] with their [json] tags. *)
Inductive apiField := fCode | fMessage | fMoreInfo.

Definition apiFieldName (f : apiField) : string :=
  match f with
  | fCode => "code"
  | fMessage => "message"
  | fMoreInfo => "moreInfo"
  end.

(** What [encoding/json] stores in one field: [null] leaves it, a value of the
    field's kind sets it ([Code] is an [int], of 64 bits), any other value is
    an [UnmarshalTypeError] and leaves it. *)
Definition storeField (f : apiField) (jv : json.value) (a : ApiError)
  : ApiError * option json.error :=
  match jv with
  | json.Null => (a, None)
  | _ =>
      match f with
      | fCode =>
          match jv with
          | json.Number lit =>
              match json.ParseInt64 lit with
              | Some n => (mkApiError n (Message a) (MoreInfo a), None)
              | None => (a, Some (json.UnmarshalTypeError ("number " +:+ lit) "int"))
              end
          | _ => (a, Some (json.UnmarshalTypeError (json.kindOf jv) "int"))
          end
      | fMessage =>
          match jv with
          | json.Str s => (mkApiError (Code a) s (MoreInfo a), None)
          | _ => (a, Some (json.UnmarshalTypeError (json.kindOf jv) "string"))
          end
      | fMoreInfo =>
          match jv with
          | json.Str s => (mkApiError (Code a) (Message a) s, None)
          | _ => (a, Some (json.UnmarshalTypeError (json.kindOf jv) "string"))
          end
      end
  end.

(** One member of a JSON object decoded into an [ApiError]: a key that names
    no field is skipped. *)
Definition storeMember (st : ApiError * option json.error) (kv : string * json.value)
  : ApiError * option json.error :=
  match json.findField apiFieldName [fCode; fMessage; fMoreInfo] (fst kv) with
  | Some f =>
      let '(a', e) := storeField f (snd kv) (fst st) in
      (a', json.saveError (snd st) e)
  | None => st
  end.

(** [json.Unmarshal] into a [*ApiError]: an object fills the fields member by
    member, [null] changes nothing, any other value is an
    [UnmarshalTypeError]. *)
#[global] Instance ApiError_Unmarshaler : json.Unmarshaler ApiError :=
  fun jv a =>
    match jv with
    | json.Null => (a, None)
    | json.Object ms => fold_left storeMember ms (a, None)
    | _ => (a, Some (json.UnmarshalTypeError (json.kindOf jv) "oanda.ApiError"))
    end.

(** ** Errors and results *)

(** The [error] values that flow through this package, by origin. *)
Inductive error :=
| errorString (msg : string)
| requestError (msg : string)
| transportError (msg : string)
| jsonError (e : json.error)
| apiError (e : ApiError).

(** A Go result pair [(x, err)] of which exactly one half is nil. *)
Inductive result (A : Type) :=
| Ok (a : A)
| Err (e : error).
Arguments Ok {A} a.
Arguments Err {A} e.

(** [validMethod] of [net/http]: a non-empty token. *)
Definition validMethod (method : string) : bool :=
  (0 <? String.length method)%nat && string_forall textproto.validHeaderFieldByte method.

(** ** Response bodies *)

(** [n] bytes read from a stream. *)
Definition readBytes (n : nat) (rc : ReadCloser) : ReadCloser :=
  mkReadCloser (string_drop n (unread rc)) (closed rc).

(** [io.Copy(ioutil.Discard, rc)]: reads to the end of the stream; a closed
    stream refuses the read. *)
Definition discardAll (rc : ReadCloser) : ReadCloser :=
  if closed rc then rc else mkReadCloser EmptyString false.

Definition Close (rc : ReadCloser) : ReadCloser := mkReadCloser (unread rc) true.

Definition closeResponse (rc : ReadCloser) : ReadCloser := Close (discardAll rc).

(** [trace] of the debug build is [io.TeeReader(rdr, os.Stderr)]: the reader
    yields what [rdr] yields. The copy written to standard error, like the
    lines printed by [debug], is diagnostic output and is left out. *)
Definition trace (rdr : ReadCloser) : ReadCloser := rdr.

(** ** The scripted transport used in the examples

    The world is the list of replies still to be served. *)
Record Reply := mkReply {
  status : Z;
  headers : Header;
  content : string
}.

Definition scripted (req : Request) (w : list (string + Reply))
  : (string + Reply) * list (string + Reply) :=
  match w with
  | [] => (inl "no reply scripted"%string, [])
  | r :: w' => (r, w')
  end.

(** The error body [{"code":1,"message":"bad","moreInfo":"see docs"}]. *)
Definition quote (s : string) : string :=
  String dquote s +:+ String dquote EmptyString.

Definition badRequestBody : string :=
  "{" +:+ quote "code" +:+ ":1," +:+ quote "message" +:+ ":" +:+ quote "bad" +:+ ","
    +:+ quote "moreInfo" +:+ ":" +:+ quote "see docs" +:+ "}".

(** Replies: a success that carries an entity tag, a not-modified reply with
    no entity tag, and a bad request with the error body above. *)
Definition taggedReply (tag : string) : Reply :=
  mkReply 200 {["Etag"%string := [tag]]} "{}".

Definition notModifiedReply : Reply := mkReply 304 ∅ EmptyString.

Definition badRequestReply : Reply := mkReply 400 ∅ badRequestBody.

(** A stand-in for [url.Parse] that takes the whole string as the path. *)
Definition pathOnly (s : string) : string + URL :=
  inr (mkURL EmptyString EmptyString None EmptyString s EmptyString EmptyString).

(** A decoder that has read the whole stream when it returns. *)
Definition readsAll (s : string) : nat := String.length s.

(** * The client, over a transport *)

Section Pipeline.

(** Everything outside the program: the network and the servers. *)
Variable World : Type.

(** [url.Parse], with the error's text. *)
Variable url_Parse : string -> string + URL.

(** The package variable [Debug]. *)
Variable Debug : string.

(** How many bytes the buffered [json.Decoder] has taken from a stream holding
    the given bytes when [Decode] returns. *)
Variable decoderReads : string -> nat.

(** A [*http.Client], by what [Do] does with a request: an error, or the
    status, headers and body bytes of the response. *)
Definition HttpClient : Type := Request -> World -> (string + Reply) * World.

(** The package variable [DefaultHttpClient]. *)
Variable DefaultHttpClient : HttpClient.

Record Client := mkClient {
  reqMods : list requestModifier;
  accountId : Id;
  httpClient : HttpClient
}.

Definition AccountId (c : Client) : Id := accountId c.

Definition SelectAccount (c : Client) (id : Id) : Client :=
  mkClient (reqMods c) id (httpClient c).

Definition newClient (h : HttpClient) (reqMod : list requestModifier) : Client :=
  mkClient ([defaultDateFormat; defaultContentType] ++ reqMod) 0%N h.

Definition NewClient (environment token : string) (h : option HttpClient)
  : result Client :=
  let h := default DefaultHttpClient h in
  if String.eqb environment "fxpractice" then
    Ok (newClient h [Environment "fxpractice"; TokenAuthenticator token])
  else if String.eqb environment "fxtrade" then
    Ok (newClient h [Environment "fxtrade"; TokenAuthenticator token])
  else Err (errorString ("Invalid Oanda environment " +:+ environment)).

Definition NewFxPracticeClient (token : string) : result Client :=
  if String.eqb token EmptyString then Err (errorString "No FxPractice access token")
  else NewClient "fxpractice" token None.

Definition NewFxTradeClient (token : string) : result Client :=
  if String.eqb token EmptyString then Err (errorString "No FxTrade access token")
  else NewClient "fxtrade" token None.

(** [http.NewRequest]: the method defaults to GET and must be a token, the
    URL must parse; the request starts with an empty header, the body given
    and the host of the URL. *)
Definition http_NewRequest (method urlStr : string) (body : option string)
  : result Request :=
  let method := if String.eqb method EmptyString then "GET"%string else method in
  if validMethod method then
    match url_Parse urlStr with
    | inl e => Err (requestError e)
    | inr u =>
        Ok (mkRequest method u ∅ body
              (match body with
               | Some b => Z.of_nat (String.length b)
               | None => 0
               end)
              (Host u))
    end
  else Err (requestError ("net/http: invalid method " +:+ method)).

(** The loop [for _, reqMod := range c.reqMods { reqMod.modify(req) }]. *)
Definition applyAll (mods : list requestModifier) (req : Request) : Request :=
  fold_left (fun req reqMod => modify reqMod req) mods req.

(** [Client.NewRequest]. *)
Definition NewRequest (c : Client) (method urlStr : string) (body : option string)
  : result Request :=
  match http_NewRequest method urlStr body with
  | Err e => Err e
  | Ok req => Ok (applyAll (reqMods c) req)
  end.

(** ** Effects: the world and the requests dispatched so far *)

Record State := mkState {
  world : World;
  sent : list Request
}.

Definition M (A : Type) : Type := State -> A * State.

Definition ret {A : Type} (a : A) : M A := fun s => (a, s).

Definition bind {A B : Type} (m : M A) (k : A -> M B) : M B :=
  fun s => let '(a, s') := m s in k a s'.

Notation "'let*' x := m 'in' k" := (bind m (fun x => k))
  (at level 10, x pattern, m at level 100, k at level 200, only parsing).

(** The response [Do] makes of a reply: status and headers as received, the
    body open and unread. *)
Definition rawResponse (rp : Reply) : Response :=
  mkResponse (status rp) (headers rp) (mkReadCloser (content rp) false).

(** [c.Do(req)], promoted from the embedded [*http.Client]. *)
Definition Do (c : Client) (req : Request) : M (string + Response) :=
  fun s =>
    let '(r, w) := httpClient c req (world s) in
    (match r with
     | inl e => inl e
     | inr rp => inr (rawResponse rp)
     end,
     mkState w (sent s ++ [req])).

(** ** PollRequest *)

Record PollRequest := mkPollRequest {
  pr_c : Client;
  pr_req : Request
}.

(** [PollRequest.Poll]: the result, and the poll request with the header
    written to its held request. *)
Definition Poll (pr : PollRequest) : M (result Response * PollRequest) :=
  let* r := Do (pr_c pr) (pr_req pr) in
  match r with
  | inl e => ret (Err (transportError e), pr)
  | inr rsp =>
      let etag := Hdr.Get (RspHeader rsp) "ETag" in
      if String.eqb etag EmptyString then ret (Ok rsp, pr)
      else
        ret (Ok rsp,
             mkPollRequest (pr_c pr)
               (withHeader (pr_req pr)
                  (Hdr.Set_ (ReqHeader (pr_req pr)) "If-None-Match" etag)))
  end.

(** [n] calls of [Poll] in a row; the results, first call first. *)
Fixpoint PollTimes (n : nat) (pr : PollRequest) : M (list (result Response) * PollRequest) :=
  match n with
  | O => ret ([], pr)
  | S n' =>
      let* x := Poll pr in
      let* y := PollTimes n' (snd x) in
      ret (fst x :: fst y, snd y)
  end.

(** A poll result that brings no entity tag: an error, or a response whose
    ETag header is absent or empty. *)
Definition noEntityTag (r : result Response) : Prop :=
  match r with
  | Ok rsp => Hdr.Get (RspHeader rsp) "ETag" = EmptyString
  | Err _ => True
  end.

(** ** requestAndDecode *)

(** What a call leaves behind: the target [v], the error returned, and the
    response body when a response was received. *)
Record Outcome (T : Type) := mkOutcome {
  target : T;
  returned : option error;
  body : option ReadCloser
}.
Arguments mkOutcome {T} _ _ _.
Arguments target {T} _.
Arguments returned {T} _.
Arguments body {T} _.

(** [json.NewDecoder(r).Decode(v)]: the decoder sees the bytes the stream
    still holds. *)
Definition decodeStream {T : Type} `{json.Unmarshaler T} (r : ReadCloser) (v : T)
  : T * option json.error :=
  json.Decode (unread r) v.

(** The reader [rdr] handed to [NewRequest]: nil unless [len(data) > 0], and
    then a reader over [data.Encode()]. *)
Definition formBody (data : Values) : option string :=
  if (0 <? size data)%nat then Some (url.Encode data) else None.

(** [requestAndDecode]. The calls of [debug] print and do nothing else; they
    are left out. *)
Definition requestAndDecode {T : Type} `{json.Unmarshaler T}
    (c : Client) (method urlStr : string) (data : Values) (v : T) : M (Outcome T) :=
  match NewRequest c method urlStr (formBody data) with
  | Err e => ret (mkOutcome v (Some e) None)
  | Ok req =>
      let* r := Do c req in
      match r with
      | inl e => ret (mkOutcome v (Some (transportError e)) None)
      | inr rsp =>
          let rdr := if String.eqb Debug "trace" then trace (RspBody rsp) else RspBody rsp in
          let '(v', err) :=
            if StatusCode rsp <? 400 then
              let '(v', e) := decodeStream rdr v in (v', jsonError <$> e)
            else
              let '(apiErr, e) := decodeStream rdr (mkApiError 0 EmptyString EmptyString) in
              match e with
              | Some e => (v, Some (jsonError e))
              | None => (v, Some (apiError apiErr))
              end in
          (* the deferred closeResponse(rsp.Body) *)
          ret (mkOutcome v' err
                 (Some (closeResponse (readBytes (decoderReads (unread (RspBody rsp))) (RspBody rsp)))))
      end
  end.

(** The two branches of [requestAndDecode] on a reply, as the pair of the
    target left behind and the error returned. *)
Definition routed {T : Type} `{json.Unmarshaler T} (rp : Reply) (v : T) : T * option error :=
  if status rp <? 400 then
    (fst (json.Decode (content rp) v), jsonError <$> snd (json.Decode (content rp) v))
  else
    (v, Some (match json.Decode (content rp) (mkApiError 0 EmptyString EmptyString) with
              | (_, Some e) => jsonError e
              | (a, None) => apiError a
              end)).

Definition getAndDecode {T : Type} `{json.Unmarshaler T}
    (c : Client) (urlStr : string) (v : T) : M (Outcome T) :=
  requestAndDecode c "GET" urlStr ∅ v.

(** ** Notions used to state how modifiers and polls compose *)

(** Two modifiers of the same Go type. *)
Definition sameKind (m1 m2 : requestModifier) : bool :=
  match m1, m2 with
  | TokenAuthenticator _, TokenAuthenticator _ => true
  | Environment _, Environment _ => true
  | DateFormat _, DateFormat _ => true
  | ContentType _, ContentType _ => true
  | _, _ => false
  end.

(** The first [Environment] of a modifier list. *)
Fixpoint firstEnvironment (mods : list requestModifier) : option string :=
  match mods with
  | [] => None
  | Environment e :: _ => Some e
  | _ :: rest => firstEnvironment rest
  end.

(** The entity tag in force after a run of poll results, starting from the
    one in force before it: each response with a non-empty ETag replaces it. *)
Definition nextTag (tag : string) (r : result Response) : string :=
  match r with
  | Ok rsp =>
      if String.eqb (Hdr.Get (RspHeader rsp) "ETag") EmptyString then tag
      else Hdr.Get (RspHeader rsp) "ETag"
  | Err _ => tag
  end.

Definition lastTag (tag : string) (rs : list (result Response)) : string :=
  fold_left nextTag rs tag.

(** A key of an error body that names no field of [ApiError]. *)
Definition namesNoField (kv : string * json.value) : Prop :=
  json.findField apiFieldName [fCode; fMessage; fMoreInfo] (fst kv) = None.


(** * Properties *)

(** ** Headers *)

Lemma lookup_Set (h : Header) (k v key : string) :
  Hdr.Set_ h k v !! key =
    if decide (textproto.CanonicalMIMEHeaderKey k = key) then Some [v] else h !! key.
Proof. unfold Hdr.Set_. apply lookup_insert. Qed.

Lemma Get_Set (h : Header) (k v : string) : Hdr.Get (Hdr.Set_ h k v) k = v.
Proof. unfold Hdr.Get. rewrite lookup_Set. rewrite decide_True; reflexivity. Qed.

(** No modifier touches the body. *)
Lemma modify_Body (m : requestModifier) (req : Request) :
  Body (modify m req) = Body req.
Proof. destruct m; simpl; try reflexivity. destruct (Body req) eqn:E; simpl; auto. Qed.

(** The headers after one modifier are the headers before it overwritten by
    its documented write. *)
Lemma modify_header (m : requestModifier) (req : Request) (key : string) :
  ReqHeader (modify m req) !! key =
    match headerWrite (hasBody (Body req)) m with
    | Some (k, v) => if String.eqb k key then Some [v] else ReqHeader req !! key
    | None => ReqHeader req !! key
    end.
Proof.
  destruct m as [a|e|d|c]; cbn [modify headerWrite].
  - cbn [withHeader ReqHeader]. rewrite lookup_Set.
    change (textproto.CanonicalMIMEHeaderKey "Authorization") with "Authorization"%string.
    destruct (String.eqb_spec "Authorization" key); case_decide; congruence.
  - reflexivity.
  - cbn [withHeader ReqHeader]. rewrite lookup_Set.
    change (textproto.CanonicalMIMEHeaderKey "X-Accept-Datetime-Format")
      with "X-Accept-Datetime-Format"%string.
    destruct (String.eqb_spec "X-Accept-Datetime-Format" key); case_decide; congruence.
  - destruct (Body req) as [b|]; cbn [hasBody]; [|reflexivity].
    cbn [withHeader ReqHeader]. rewrite lookup_Set.
    change (textproto.CanonicalMIMEHeaderKey "Content-Type") with "Content-Type"%string.
    destruct (String.eqb_spec "Content-Type" key); case_decide; congruence.
Qed.

Lemma applyAll_Body (mods : list requestModifier) (req : Request) :
  Body (applyAll mods req) = Body req.
Proof.
  revert req. induction mods as [|m mods IH]; intros req; [reflexivity|].
  cbn. change (Body (applyAll mods (modify m req)) = Body req).
  rewrite IH. apply modify_Body.
Qed.

Lemma applyAll_header (mods : list requestModifier) (req : Request) (key : string) :
  ReqHeader (applyAll mods req) !! key =
    match lastWriter key (omap (headerWrite (hasBody (Body req))) mods) with
    | Some v => Some [v]
    | None => ReqHeader req !! key
    end.
Proof.
  revert req. induction mods as [|m mods IH]; intros req; [reflexivity|].
  change (applyAll (m :: mods) req) with (applyAll mods (modify m req)).
  rewrite IH, modify_Body, modify_header. cbn [omap list_omap].
  destruct (headerWrite (hasBody (Body req)) m) as [[k v]|]; cbn [lastWriter].
  - destruct (lastWriter key _); [reflexivity|]. destruct (String.eqb k key); reflexivity.
  - reflexivity.
Qed.

(** ** The modifiers *)

(** C4. [Environment.modify] sets the scheme to https, keeps a host that is
    already set, gives a request without host the host
    api-<environment>.oanda.com, changes nothing else of the request, and
    applied a second time changes nothing. *)
Theorem Environment_modify_idempotent (e : string) (req : Request) :
  let req' := modify (Environment e) req in
  Scheme (ReqURL req') = "https"%string
  /\ (Host (ReqURL req) <> EmptyString -> Host (ReqURL req') = Host (ReqURL req))
  /\ (Host (ReqURL req) = EmptyString ->
      Host (ReqURL req') = "api-" +:+ e +:+ ".oanda.com")
  /\ modify (Environment e) req' = req'
  /\ req' = withURL req (withHost (withScheme (ReqURL req) "https") (Host (ReqURL req'))).
Proof.
  destruct req as [m [sc op us ho pa rq fr] hd bd cl rh]. cbn -[String.append].
  destruct ho as [|a ho']; cbn -[String.append]; repeat split; congruence.
Qed.

(** C8. [ContentType.modify] leaves a request without body as it is, so no
    Content-Type header is set by it; on a request with a body it binds
    Content-Type to exactly the media type and changes nothing else. *)
Theorem ContentType_modify_body (c : string) (req : Request) :
  let req' := modify (ContentType c) req in
  (Body req = None ->
     req' = req
     /\ (ReqHeader req !! "Content-Type"%string = None ->
         ReqHeader req' !! "Content-Type"%string = None
         /\ Hdr.Get (ReqHeader req') "Content-Type" = EmptyString))
  /\ (Body req <> None ->
     ReqHeader req' !! "Content-Type"%string = Some [c]
     /\ Hdr.Get (ReqHeader req') "Content-Type" = c
     /\ (forall key, key <> "Content-Type"%string ->
           ReqHeader req' !! key = ReqHeader req !! key)
     /\ req' = withHeader req (ReqHeader req')).
Proof.
  cbn zeta. split.
  - intros Hb. cbn [modify]. rewrite Hb. split; [reflexivity|].
    intros Hn. split; [exact Hn|]. unfold Hdr.Get.
    change (textproto.CanonicalMIMEHeaderKey "Content-Type") with "Content-Type"%string.
    rewrite Hn. reflexivity.
  - intros Hb. cbn [modify]. destruct (Body req) as [b|] eqn:E; [|congruence].
    cbn [withHeader ReqHeader]. repeat split.
    + rewrite lookup_Set. rewrite decide_True; reflexivity.
    + apply Get_Set.
    + intros key Hk. rewrite lookup_Set. rewrite decide_False; [reflexivity|].
      change (textproto.CanonicalMIMEHeaderKey "Content-Type") with "Content-Type"%string.
      congruence.
Qed.

(** ** Building requests *)

Lemma applyAll_snoc (mods : list requestModifier) (m : requestModifier) (req : Request) :
  applyAll (mods ++ [m]) req = modify m (applyAll mods req).
Proof. unfold applyAll. rewrite fold_left_app. reflexivity. Qed.

Lemma http_NewRequest_fresh (method urlStr : string) (b : option string) (req : Request) :
  http_NewRequest method urlStr b = Ok req -> ReqHeader req = ∅ /\ Body req = b.
Proof.
  unfold http_NewRequest. destruct (validMethod _); [|discriminate].
  destruct (url_Parse urlStr); [discriminate|]. intros [= <-]. split; reflexivity.
Qed.

(** C5. A client made by [newClient] holds the date-format and content-type
    defaults followed by the caller's modifiers in their order; [NewRequest]
    applies a client's modifiers to the fresh request from the first to the
    last, each on the request left by the ones before it; and every header of
    the result is the value written by the last modifier that writes it, or
    absent when none does. *)
Theorem NewRequest_modifiers_in_order
    (c : Client) (method urlStr : string) (b : option string) :
  (forall h mods,
      reqMods (newClient h mods) = DateFormat "UNIX"
        :: ContentType "application/x-www-form-urlencoded" :: mods)
  /\ (forall mods m req, applyAll (mods ++ [m]) req = modify m (applyAll mods req))
  /\ match http_NewRequest method urlStr b with
     | Err e => NewRequest c method urlStr b = Err e
     | Ok req0 =>
         NewRequest c method urlStr b = Ok (applyAll (reqMods c) req0)
         /\ forall key,
              ReqHeader (applyAll (reqMods c) req0) !! key =
                (fun v => [v]) <$> lastWriter key (omap (headerWrite (hasBody b)) (reqMods c))
     end.
Proof.
  split; [reflexivity|]. split; [apply applyAll_snoc|].
  unfold NewRequest. destruct (http_NewRequest method urlStr b) as [req0|e] eqn:E;
    [|reflexivity].
  split; [reflexivity|]. intros key.
  apply http_NewRequest_fresh in E as [Hh Hb].
  rewrite applyAll_header, Hb, Hh, lookup_empty.
  destruct (lastWriter key _); reflexivity.
Qed.

(** ** requestAndDecode *)

Lemma requestAndDecode_response {T : Type} `{json.Unmarshaler T}
    (c : Client) (method urlStr : string) (data : Values) (v : T) (s : State)
    (req : Request) (rp : Reply) (w : World) :
  NewRequest c method urlStr (formBody data) = Ok req ->
  httpClient c req (world s) = (inr rp, w) ->
  requestAndDecode c method urlStr data v s =
    (mkOutcome (fst (routed rp v)) (snd (routed rp v)) (Some (mkReadCloser EmptyString true)),
     mkState w (sent s ++ [req])).
Proof.
  intros Hreq Hdo. unfold requestAndDecode. rewrite Hreq.
  unfold bind, Do, rawResponse. rewrite Hdo. cbn [RspBody StatusCode].
  assert (Hrdr : (if String.eqb Debug "trace"
                  then trace (mkReadCloser (content rp) false)
                  else mkReadCloser (content rp) false) = mkReadCloser (content rp) false)
    by (destruct (String.eqb Debug "trace"); reflexivity).
  rewrite Hrdr. unfold routed, decodeStream, ret. cbn [unread].
  destruct (status rp <? 400).
  - destruct (json.Decode (content rp) v) as [v' e]. reflexivity.
  - destruct (json.Decode (content rp) (mkApiError 0 EmptyString EmptyString)) as [a [e|]];
      reflexivity.
Qed.

(** C1. With a response in hand there are two branches. Below status 400 the
    body is decoded into the target and the error returned is the decoder's
    (never a service error); from 400 on the target is left alone and the body
    is decoded as an [ApiError], which is the error returned, unless that
    decoding fails, in which case the decoder's error is returned. The target
    type plays no part in the second branch. *)
Theorem requestAndDecode_status_branches {T : Type} `{json.Unmarshaler T}
    (c : Client) (method urlStr : string) (data : Values) (v : T) (s : State)
    (req : Request) (rp : Reply) (w : World) :
  NewRequest c method urlStr (formBody data) = Ok req ->
  httpClient c req (world s) = (inr rp, w) ->
  let out := fst (requestAndDecode c method urlStr data v s) in
  (status rp < 400 ->
     target out = fst (json.Decode (content rp) v)
     /\ returned out = jsonError <$> snd (json.Decode (content rp) v)
     /\ forall a, returned out <> Some (apiError a))
  /\ (400 <= status rp ->
     target out = v
     /\ match json.Decode (content rp) (mkApiError 0 EmptyString EmptyString) with
        | (a, None) => returned out = Some (apiError a)
        | (_, Some e) => returned out = Some (jsonError e)
        end).
Proof.
  intros Hreq Hdo. cbn zeta.
  rewrite (requestAndDecode_response c method urlStr data v s req rp w Hreq Hdo).
  cbn [fst target returned]. unfold routed. split; intros Hst.
  - apply Z.ltb_lt in Hst. rewrite Hst. cbn [fst snd]. repeat split.
    intros a. destruct (snd (json.Decode (content rp) v)); discriminate.
  - apply Z.ltb_ge in Hst. rewrite Hst. cbn [fst snd]. split; [reflexivity|].
    destruct (json.Decode (content rp) (mkApiError 0 EmptyString EmptyString)) as [a [e|]];
      reflexivity.
Qed.

(** C6. Whenever the transport hands back a response, its body has been read
    to the end and closed when [requestAndDecode] returns, whatever the status
    and whether or not the decoding succeeded, and however much of the stream
    the decoder had read. *)
Theorem requestAndDecode_closes_body {T : Type} `{json.Unmarshaler T}
    (c : Client) (method urlStr : string) (data : Values) (v : T) (s : State)
    (req : Request) (rp : Reply) (w : World) :
  NewRequest c method urlStr (formBody data) = Ok req ->
  httpClient c req (world s) = (inr rp, w) ->
  body (fst (requestAndDecode c method urlStr data v s))
    = Some (mkReadCloser EmptyString true).
Proof.
  intros Hreq Hdo.
  rewrite (requestAndDecode_response c method urlStr data v s req rp w Hreq Hdo).
  reflexivity.
Qed.

(** C7. On a response with status 400 and the body
    [{"code":1,"message":"bad","moreInfo":"see docs"}] the error returned is
    the [ApiError] that renders as
    [ApiError{Code: 1, Message: bad, Moreinfo: see docs}], and the target is
    the one passed in. *)
Theorem requestAndDecode_bad_request {T : Type} `{json.Unmarshaler T}
    (c : Client) (method urlStr : string) (data : Values) (v : T) (s : State)
    (req : Request) (rp : Reply) (w : World) :
  NewRequest c method urlStr (formBody data) = Ok req ->
  httpClient c req (world s) = (inr rp, w) ->
  status rp = 400 ->
  content rp = badRequestBody ->
  let out := fst (requestAndDecode c method urlStr data v s) in
  exists ae : ApiError,
    returned out = Some (apiError ae)
    /\ ae = mkApiError 1 "bad" "see docs"
    /\ ApiError_Error ae = "ApiError{Code: 1, Message: bad, Moreinfo: see docs}"%string
    /\ target out = v.
Proof.
  intros Hreq Hdo Hst Hbody. cbn zeta.
  rewrite (requestAndDecode_response c method urlStr data v s req rp w Hreq Hdo).
  cbn [fst target returned]. unfold routed. rewrite Hst, Hbody.
  exists (mkApiError 1 "bad" "see docs"). repeat split.
Qed.

Lemma size_pos_nonempty (data : Values) : (0 <? size data)%nat = false <-> data = ∅.
Proof.
  rewrite Nat.ltb_ge. split.
  - intros Hs. apply map_size_empty_iff. lia.
  - intros ->. rewrite map_size_empty. lia.
Qed.

Lemma NewRequest_Body (c : Client) (method urlStr : string) (b : option string) (req : Request) :
  NewRequest c method urlStr b = Ok req -> Body req = b.
Proof.
  unfold NewRequest. destruct (http_NewRequest method urlStr b) as [req0|e] eqn:E;
    [|discriminate].
  intros [= <-]. rewrite applyAll_Body. apply (http_NewRequest_fresh _ _ _ _ E).
Qed.

Lemma lastWriter_None (key : string) (ws : list (string * string)) :
  Forall (fun kv => fst kv <> key) ws -> lastWriter key ws = None.
Proof.
  induction 1 as [|[k v] ws Hk _ IH]; [reflexivity|].
  cbn [lastWriter]. rewrite IH. cbn in Hk.
  destruct (String.eqb_spec k key); congruence.
Qed.

(** Without a body no modifier writes Content-Type. *)
Lemma no_body_no_content_type (mods : list requestModifier) :
  lastWriter "Content-Type" (omap (headerWrite false) mods) = None.
Proof.
  apply lastWriter_None. induction mods as [|m mods IH]; [constructor|].
  cbn [omap list_omap]. destruct m; cbn [headerWrite]; try assumption;
    constructor; try assumption; cbn; discriminate.
Qed.

(** What [http.NewRequest] answers depends on the body only through the
    request it builds. *)
Lemma http_NewRequest_any_body (method urlStr : string) (b : option string) :
  match http_NewRequest method urlStr None with
  | Err e => http_NewRequest method urlStr b = Err e
  | Ok _ => exists req0, http_NewRequest method urlStr b = Ok req0
  end.
Proof.
  unfold http_NewRequest. destruct (validMethod _); [|reflexivity].
  destruct (url_Parse urlStr); [reflexivity|]. eexists. reflexivity.
Qed.

Lemma formBody_empty : formBody ∅ = None.
Proof. unfold formBody. rewrite map_size_empty. reflexivity. Qed.

Lemma formBody_nonempty (data : Values) : data <> ∅ -> formBody data = Some (url.Encode data).
Proof.
  intros Hne. unfold formBody. destruct (0 <? size data)%nat eqn:E; [reflexivity|].
  apply size_pos_nonempty in E. contradiction.
Qed.

(** [requestAndDecode] dispatches the request it built, once. *)
Lemma requestAndDecode_sent {T : Type} `{json.Unmarshaler T}
    (c : Client) (method urlStr : string) (data : Values) (v : T) (s : State) :
  match NewRequest c method urlStr (formBody data) with
  | Err e =>
      requestAndDecode c method urlStr data v s = (mkOutcome v (Some e) None, s)
  | Ok req => sent (snd (requestAndDecode c method urlStr data v s)) = sent s ++ [req]
  end.
Proof.
  unfold requestAndDecode.
  destruct (NewRequest c method urlStr (formBody data)) as [req|e]; [|reflexivity].
  unfold bind, Do, rawResponse.
  destruct (httpClient c req (world s)) as [[e|rp] w]; [reflexivity|].
  cbn [RspBody StatusCode].
  match goal with |- context [let '(v', err) := ?X in _] => destruct X as [v' err] end.
  reflexivity.
Qed.

(** C9. If the request cannot be built nothing is dispatched and the error is
    returned. Otherwise exactly one request is dispatched, for any method:
    with at least one parameter its body is the form encoding of the
    parameters; with none it has no body, and then no Content-Type header
    either, whatever the client's modifiers are. *)
Theorem requestAndDecode_form_body {T : Type} `{json.Unmarshaler T}
    (c : Client) (method urlStr : string) (data : Values) (v : T) (s : State) :
  let out := fst (requestAndDecode c method urlStr data v s) in
  let s' := snd (requestAndDecode c method urlStr data v s) in
  match http_NewRequest method urlStr None with
  | Err e => sent s' = sent s /\ returned out = Some e
  | Ok _ =>
      exists req,
        sent s' = sent s ++ [req]
        /\ (data <> ∅ -> Body req = Some (url.Encode data))
        /\ (data = ∅ ->
            Body req = None /\ ReqHeader req !! "Content-Type"%string = None)
  end.
Proof.
  cbn zeta. pose proof (http_NewRequest_any_body method urlStr (formBody data)) as Hany.
  pose proof (requestAndDecode_sent c method urlStr data v s) as Hsent.
  unfold NewRequest in Hsent.
  destruct (http_NewRequest method urlStr None) as [r0|e].
  - destruct Hany as [req0 Hreq0]. rewrite Hreq0 in Hsent.
    exists (applyAll (reqMods c) req0). split; [exact Hsent|].
    apply http_NewRequest_fresh in Hreq0 as [Hh Hb].
    rewrite applyAll_Body, Hb. split.
    + apply formBody_nonempty.
    + intros ->. split; [apply formBody_empty|].
      rewrite applyAll_header, Hb, Hh, formBody_empty. cbn [hasBody].
      rewrite no_body_no_content_type. apply lookup_empty.
  - rewrite Hany in Hsent. rewrite Hsent. split; reflexivity.
Qed.

(** ** Poll *)

(** [Poll] case by case. *)
Lemma Poll_cases (pr : PollRequest) (s : State) :
  match httpClient (pr_c pr) (pr_req pr) (world s) with
  | (inl e, w) =>
      Poll pr s = ((Err (transportError e), pr), mkState w (sent s ++ [pr_req pr]))
  | (inr rp, w) =>
      Poll pr s =
        ((Ok (rawResponse rp),
          if String.eqb (Hdr.Get (headers rp) "ETag") EmptyString then pr
          else mkPollRequest (pr_c pr)
                 (withHeader (pr_req pr)
                    (Hdr.Set_ (ReqHeader (pr_req pr)) "If-None-Match"
                       (Hdr.Get (headers rp) "ETag")))),
         mkState w (sent s ++ [pr_req pr]))
  end.
Proof.
  unfold Poll, bind, Do, rawResponse.
  destruct (httpClient (pr_c pr) (pr_req pr) (world s)) as [[e|rp] w]; [reflexivity|].
  cbn [RspHeader]. destruct (String.eqb _ _); reflexivity.
Qed.

Lemma Poll_sent (pr : PollRequest) (s : State) :
  sent (snd (Poll pr s)) = sent s ++ [pr_req pr].
Proof.
  pose proof (Poll_cases pr s) as Hc.
  destruct (httpClient (pr_c pr) (pr_req pr) (world s)) as [[e|rp] w];
    rewrite Hc; reflexivity.
Qed.

Lemma Poll_noEntityTag (pr : PollRequest) (s : State) :
  noEntityTag (fst (fst (Poll pr s))) -> snd (fst (Poll pr s)) = pr.
Proof.
  pose proof (Poll_cases pr s) as Hc.
  destruct (httpClient (pr_c pr) (pr_req pr) (world s)) as [[e|rp] w];
    rewrite Hc; cbn [fst snd noEntityTag rawResponse RspHeader]; [reflexivity|].
  intros ->. reflexivity.
Qed.

(** C3, as the code has it. Of two successful polls in a row the first
    dispatches the held request and the second dispatches: the held request
    with If-None-Match bound to exactly the first response's entity tag, when
    that tag is not empty; the very same request as the first call, so with
    the conditional header it already had or with none, when the first
    response has no entity tag. The response returned is the one received,
    its body open and unread; a transport error is returned as it is, with no
    response, and the held request stays as it was. *)
Theorem Poll_conditional_header (pr : PollRequest) (s : State) :
  let r1 := Poll pr s in
  let r2 := Poll (snd (fst r1)) (snd r1) in
  (forall rsp1 rsp2,
      fst (fst r1) = Ok rsp1 -> fst (fst r2) = Ok rsp2 ->
      exists req2,
        sent (snd r2) = sent s ++ [pr_req pr; req2]
        /\ (Hdr.Get (RspHeader rsp1) "ETag" <> EmptyString ->
            Hdr.Get (ReqHeader req2) "If-None-Match" = Hdr.Get (RspHeader rsp1) "ETag"
            /\ req2 = withHeader (pr_req pr)
                        (<["If-None-Match"%string := [Hdr.Get (RspHeader rsp1) "ETag"]]>
                           (ReqHeader (pr_req pr))))
        /\ (Hdr.Get (RspHeader rsp1) "ETag" = EmptyString -> req2 = pr_req pr)
        /\ exists rp w, httpClient (pr_c pr) (pr_req pr) (world s) = (inr rp, w)
                        /\ rsp1 = rawResponse rp)
  /\ (forall e w, httpClient (pr_c pr) (pr_req pr) (world s) = (inl e, w) ->
        fst r1 = (Err (transportError e), pr)).
Proof.
  cbn zeta. pose proof (Poll_cases pr s) as Hc. split.
  - intros rsp1 rsp2 H1 _. exists (pr_req (snd (fst (Poll pr s)))).
    rewrite !Poll_sent, <- app_assoc. split; [reflexivity|].
    destruct (httpClient (pr_c pr) (pr_req pr) (world s)) as [[e|rp] w];
      rewrite Hc in *; cbn [fst snd] in *; [discriminate|].
    injection H1 as <-. cbn [rawResponse RspHeader].
    destruct (String.eqb_spec (Hdr.Get (headers rp) "ETag") EmptyString) as [Heq|Hne].
    + repeat split; try congruence. exists rp, w. split; reflexivity.
    + cbn [pr_req withHeader ReqHeader]. repeat split; try congruence.
      * apply Get_Set.
      * exists rp, w. split; reflexivity.
  - intros e w Hdo. rewrite Hdo in Hc. rewrite Hc. reflexivity.
Qed.

Lemma PollTimes_frame (n : nat) (pr : PollRequest) (s : State) :
  Forall noEntityTag (fst (fst (PollTimes n pr s))) ->
  snd (fst (PollTimes n pr s)) = pr
  /\ sent (snd (PollTimes n pr s)) = sent s ++ replicate n (pr_req pr).
Proof.
  revert s. induction n as [|n IH]; intros s.
  - intros _. cbn. rewrite app_nil_r. split; reflexivity.
  - cbn [PollTimes]. unfold bind, ret.
    destruct (Poll pr s) as [[r1 pr1] s1] eqn:E1. cbn [fst snd].
    destruct (PollTimes n pr1 s1) as [[rs pr2] s2] eqn:E2.
    cbn [fst snd]. intros HF. apply Forall_cons in HF as [Hr1 Hrs].
    pose proof (Poll_noEntityTag pr s) as Hp. pose proof (Poll_sent pr s) as Hs.
    rewrite E1 in Hp, Hs. cbn [fst snd] in Hp, Hs. specialize (Hp Hr1). subst pr1.
    specialize (IH s1). rewrite E2 in IH. cbn [fst snd] in IH.
    destruct (IH Hrs) as [-> ->]. split; [reflexivity|].
    rewrite Hs, <- app_assoc. reflexivity.
Qed.

(** C10. A poll whose response has no (or an empty) ETag header returns the
    response and leaves the held request as it is; a poll that fails in the
    transport returns that error and leaves the held request as it is. So a
    stored If-None-Match value is never cleared: after any poll the held
    request still has one, and over any run of polls none of which brings a
    new entity tag every poll dispatches the same request. *)
Theorem Poll_frame (pr : PollRequest) (s : State) :
  (forall rp w,
      httpClient (pr_c pr) (pr_req pr) (world s) = (inr rp, w) ->
      Hdr.Get (headers rp) "ETag" = EmptyString ->
      fst (Poll pr s) = (Ok (rawResponse rp), pr))
  /\ (forall e w,
      httpClient (pr_c pr) (pr_req pr) (world s) = (inl e, w) ->
      fst (Poll pr s) = (Err (transportError e), pr))
  /\ (Hdr.Get (ReqHeader (pr_req pr)) "If-None-Match" <> EmptyString ->
      Hdr.Get (ReqHeader (pr_req (snd (fst (Poll pr s))))) "If-None-Match" <> EmptyString)
  /\ (forall n,
      Forall noEntityTag (fst (fst (PollTimes n pr s))) ->
      snd (fst (PollTimes n pr s)) = pr
      /\ sent (snd (PollTimes n pr s)) = sent s ++ replicate n (pr_req pr)).
Proof.
  pose proof (Poll_cases pr s) as Hc. split; [|split; [|split]].
  - intros rp w Hdo Het. rewrite Hdo in Hc. rewrite Hc, Het. reflexivity.
  - intros e w Hdo. rewrite Hdo in Hc. rewrite Hc. reflexivity.
  - intros Hset.
    destruct (httpClient (pr_c pr) (pr_req pr) (world s)) as [[e|rp] w];
      rewrite Hc; cbn [fst snd]; [exact Hset|].
    destruct (String.eqb_spec (Hdr.Get (headers rp) "ETag") EmptyString) as [Heq|Hne];
      [exact Hset|].
    cbn [pr_req withHeader ReqHeader]. rewrite Get_Set. exact Hne.
  - intros n. apply PollTimes_frame.
Qed.

(** ** Construction *)

Lemma NewClient_environment (environment token : string) (h : option HttpClient) :
  (environment = "fxpractice"%string \/ environment = "fxtrade"%string ->
     NewClient environment token h =
       Ok (newClient (default DefaultHttpClient h)
             [Environment environment; TokenAuthenticator token]))
  /\ (environment <> "fxpractice"%string -> environment <> "fxtrade"%string ->
     NewClient environment token h =
       Err (errorString ("Invalid Oanda environment " +:+ environment))).
Proof.
  unfold NewClient. split.
  - intros [-> | ->]; reflexivity.
  - intros H1 H2. destruct (String.eqb_spec environment "fxpractice"); [contradiction|].
    destruct (String.eqb_spec environment "fxtrade"); [contradiction|]. reflexivity.
Qed.

(** The named entry points refuse the empty token and otherwise build the
    client of their environment. *)
Lemma named_constructors (token : string) :
  NewFxPracticeClient EmptyString = Err (errorString "No FxPractice access token")
  /\ NewFxTradeClient EmptyString = Err (errorString "No FxTrade access token")
  /\ (token <> EmptyString ->
      NewFxPracticeClient token =
        Ok (newClient DefaultHttpClient [Environment "fxpractice"; TokenAuthenticator token])
      /\ NewFxTradeClient token =
        Ok (newClient DefaultHttpClient [Environment "fxtrade"; TokenAuthenticator token])).
Proof.
  repeat split; unfold NewFxPracticeClient, NewFxTradeClient;
    destruct (String.eqb_spec token EmptyString); try contradiction; reflexivity.
Qed.

(** C2, at the input where the code departs from it: [NewClient] with a
    recognized environment and the empty token returns a client and no error,
    while the named entry point of the same environment returns an error; the
    client's requests carry the header [Authorization: Bearer ] with no
    token. *)
Theorem NewClient_accepts_empty_token (h : option HttpClient) :
  NewClient "fxpractice" EmptyString h =
    Ok (newClient (default DefaultHttpClient h)
          [Environment "fxpractice"; TokenAuthenticator EmptyString])
  /\ NewClient "fxtrade" EmptyString h =
    Ok (newClient (default DefaultHttpClient h)
          [Environment "fxtrade"; TokenAuthenticator EmptyString])
  /\ NewFxPracticeClient EmptyString = Err (errorString "No FxPractice access token")
  /\ NewFxTradeClient EmptyString = Err (errorString "No FxTrade access token")
  /\ forall req,
       Hdr.Get (ReqHeader (modify (TokenAuthenticator EmptyString) req)) "Authorization"
         = "Bearer "%string.
Proof.
  repeat split. intros req. cbn [modify withHeader ReqHeader]. apply Get_Set.
Qed.


(** ** How modifiers compose *)

Lemma Set_Set_ne (h : Header) (k1 k2 v1 v2 : string) :
  textproto.CanonicalMIMEHeaderKey k1 <> textproto.CanonicalMIMEHeaderKey k2 ->
  Hdr.Set_ (Hdr.Set_ h k1 v1) k2 v2 = Hdr.Set_ (Hdr.Set_ h k2 v2) k1 v1.
Proof. intros Hne. unfold Hdr.Set_. apply insert_insert_ne. congruence. Qed.

Lemma Set_Set_eq (h : Header) (k v1 v2 : string) :
  Hdr.Set_ (Hdr.Set_ h k v1) k v2 = Hdr.Set_ h k v2.
Proof. unfold Hdr.Set_. apply insert_insert_eq. Qed.

(** X1. Modifiers of different types commute: applied in either order they
    leave the same request. *)
Theorem modify_commute (m1 m2 : requestModifier) (req : Request) :
  sameKind m1 m2 = false ->
  modify m1 (modify m2 req) = modify m2 (modify m1 req).
Proof.
  destruct req as [m u hd bd cl rh].
  destruct m1, m2; cbn [sameKind]; try discriminate; intros _;
    cbn [modify withHeader withURL ReqHeader ReqURL Body Method ContentLength ReqHost];
    try reflexivity;
    try (rewrite Set_Set_ne by (vm_compute; discriminate); reflexivity);
    try (destruct bd; cbn [withHeader withURL ReqHeader ReqURL Body Method
                           ContentLength ReqHost];
         try reflexivity;
         rewrite Set_Set_ne by (vm_compute; discriminate); reflexivity).
Qed.

(** X2. Modifiers of the same type do not commute: of two header writers the
    later one wins, of two environments the earlier one wins (its host is
    already set when the later one runs). *)
Theorem modify_same_kind (a b : string) (req : Request) :
  modify (TokenAuthenticator b) (modify (TokenAuthenticator a) req)
    = modify (TokenAuthenticator b) req
  /\ modify (DateFormat b) (modify (DateFormat a) req) = modify (DateFormat b) req
  /\ modify (ContentType b) (modify (ContentType a) req) = modify (ContentType b) req
  /\ modify (Environment b) (modify (Environment a) req) = modify (Environment a) req.
Proof.
  destruct req as [m [sc op us ho pa rq fr] hd bd cl rh]. repeat split;
    cbn [modify withHeader withURL ReqHeader ReqURL Body Method ContentLength ReqHost].
  - rewrite Set_Set_eq. reflexivity.
  - rewrite Set_Set_eq. reflexivity.
  - destruct bd; cbn [withHeader ReqHeader Body]; [|reflexivity].
    rewrite Set_Set_eq. reflexivity.
  - destruct ho; reflexivity.
Qed.

(** One modifier changes nothing but the headers and the scheme and host of
    the URL. *)
Lemma modify_frame (m : requestModifier) (req : Request) :
  withURL (withHeader (modify m req) (ReqHeader req))
    (withHost (withScheme (ReqURL (modify m req)) (Scheme (ReqURL req)))
       (Host (ReqURL req)))
    = req.
Proof.
  destruct req as [me [sc op us ho pa rq fr] hd bd cl rh].
  destruct m; cbn; try reflexivity.
  - destruct ho; reflexivity.
  - destruct bd; reflexivity.
Qed.

Lemma applyAll_cons (m : requestModifier) (mods : list requestModifier) (req : Request) :
  applyAll (m :: mods) req = applyAll mods (modify m req).
Proof. reflexivity. Qed.

(** X3. Whatever the modifiers, building a request leaves its method, body,
    content length, host field and the URL's opaque part, user, path, query
    and fragment as [http.NewRequest] made them, and leaves every header other
    than Authorization, X-Accept-Datetime-Format and Content-Type as it was. *)
Theorem applyAll_frame (mods : list requestModifier) (req : Request) :
  withURL (withHeader (applyAll mods req) (ReqHeader req))
    (withHost (withScheme (ReqURL (applyAll mods req)) (Scheme (ReqURL req)))
       (Host (ReqURL req)))
    = req
  /\ forall key,
       key <> "Authorization"%string ->
       key <> "X-Accept-Datetime-Format"%string ->
       key <> "Content-Type"%string ->
       ReqHeader (applyAll mods req) !! key = ReqHeader req !! key.
Proof.
  split.
  - revert req. induction mods as [|m mods IH]; intros req.
    + destruct req as [me [sc op us ho pa rq fr] hd bd cl rh]. reflexivity.
    + rewrite applyAll_cons.
      pose proof (IH (modify m req)) as H1. pose proof (modify_frame m req) as H2.
      destruct (applyAll mods (modify m req)) as [me1 [sc1 op1 us1 ho1 pa1 rq1 fr1] hd1 bd1 cl1 rh1].
      destruct (modify m req) as [me2 [sc2 op2 us2 ho2 pa2 rq2 fr2] hd2 bd2 cl2 rh2].
      destruct req as [me [sc op us ho pa rq fr] hd bd cl rh].
      cbn in H1, H2. cbn. injection H1 as -> -> -> -> -> -> -> -> ->.
      injection H2 as -> -> -> -> -> -> -> -> ->. reflexivity.
  - intros key H1 H2 H3. rewrite applyAll_header.
    rewrite lastWriter_None; [reflexivity|].
    induction mods as [|m mods IH]; [constructor|].
    cbn [omap list_omap].
    destruct m; cbn [headerWrite]; try assumption;
      try (constructor; [cbn; congruence | assumption]).
    destruct (hasBody (Body req)); [|assumption].
    constructor; [cbn; congruence | assumption].
Qed.

Lemma modify_URL_other (m : requestModifier) (req : Request) :
  firstEnvironment [m] = None -> ReqURL (modify m req) = ReqURL req.
Proof.
  destruct m; cbn; try discriminate; try reflexivity.
  intros _. destruct (Body req); reflexivity.
Qed.

(** X4. The URL a modifier list leaves behind: a host that was set is kept;
    an empty host becomes the host of the first [Environment] in the list
    (later ones find it set), and stays empty without one; the scheme is https
    as soon as the list holds an [Environment] and untouched otherwise. *)
Theorem applyAll_environment (mods : list requestModifier) (req : Request) :
  Host (ReqURL (applyAll mods req)) =
    (if String.eqb (Host (ReqURL req)) EmptyString then
       match firstEnvironment mods with
       | Some e => "api-" +:+ e +:+ ".oanda.com"
       | None => EmptyString
       end
     else Host (ReqURL req))
  /\ Scheme (ReqURL (applyAll mods req)) =
       match firstEnvironment mods with
       | Some _ => "https"%string
       | None => Scheme (ReqURL req)
       end.
Proof.
  revert req. induction mods as [|m mods IH]; intros req.
  - cbn. destruct (String.eqb_spec (Host (ReqURL req)) EmptyString) as [->|]; split; reflexivity.
  - rewrite applyAll_cons. destruct (IH (modify m req)) as [IHh IHs]. clear IH.
    rewrite IHh, IHs. clear IHh IHs.
    destruct m as [a|e|d|c].
    + rewrite (modify_URL_other (TokenAuthenticator a)) by reflexivity. split; reflexivity.
    + destruct req as [me [sc op us ho pa rq fr] hd bd cl rh]. cbn -[String.append].
      destruct ho as [|x ho]; cbn -[String.append].
      * split; [reflexivity|]. destruct (firstEnvironment mods); reflexivity.
      * split; [reflexivity|]. destruct (firstEnvironment mods); reflexivity.
    + rewrite (modify_URL_other (DateFormat d)) by reflexivity. split; reflexivity.
    + rewrite (modify_URL_other (ContentType c)) by reflexivity. split; reflexivity.
Qed.

(** ** Construction and the requests of a constructed client *)


(** X6. The request a client made by [NewClient] builds, in full: the method
    (GET for the empty one), the parsed URL with scheme https and, unless the
    URL names a host, the host api-<environment>.oanda.com; the headers
    X-Accept-Datetime-Format: UNIX and Authorization: Bearer <token>, plus
    Content-Type: application/x-www-form-urlencoded exactly when there is a
    body, and no other header; the body as given; and the [Host] field of the
    URL as parsed, which the environment does not touch. *)
Theorem NewClient_request
    (environment token : string) (h : option HttpClient) (c : Client)
    (method urlStr : string) (b : option string) (u : URL) (req : Request) :
  NewClient environment token h = Ok c ->
  url_Parse urlStr = inr u ->
  NewRequest c method urlStr b = Ok req ->
  req =
    mkRequest
      (if String.eqb method EmptyString then "GET"%string else method)
      (mkURL "https" (Opaque u) (User u)
         (if String.eqb (Host u) EmptyString
          then "api-" +:+ environment +:+ ".oanda.com" else Host u)
         (Path u) (RawQuery u) (Fragment u))
      (<["Authorization"%string := ["Bearer " +:+ token]]>
         (match b with
          | Some _ =>
              <["Content-Type"%string := ["application/x-www-form-urlencoded"%string]]>
                (<["X-Accept-Datetime-Format"%string := ["UNIX"%string]]> ∅)
          | None => <["X-Accept-Datetime-Format"%string := ["UNIX"%string]]> ∅
          end))
      b
      (match b with
       | Some s => Z.of_nat (String.length s)
       | None => 0
       end)
      (Host u).
Proof.
  intros Hc Hu Hreq.
  assert (Hmods : reqMods c = [DateFormat "UNIX";
                               ContentType "application/x-www-form-urlencoded";
                               Environment environment; TokenAuthenticator token]).
  { unfold NewClient in Hc.
    destruct (String.eqb_spec environment "fxpractice") as [->|H1];
      [injection Hc as <-; reflexivity|].
    destruct (String.eqb_spec environment "fxtrade") as [->|H2];
      [injection Hc as <-; reflexivity|discriminate]. }
  unfold NewRequest, http_NewRequest in Hreq. rewrite Hu, Hmods in Hreq.
  destruct (validMethod _); [|discriminate]. injection Hreq as <-.
  destruct u as [sc op us ho pa rq fr].
  unfold applyAll. cbn [fold_left]. unfold Hdr.Set_.
  destruct b as [s|]; cbn -[String.append String.eqb insert];
    destruct (String.eqb ho EmptyString); reflexivity.
Qed.

(** ** Dispatch *)

(** X7. [requestAndDecode] makes one attempt: when the request cannot be
    built nothing is dispatched and the world is untouched; otherwise exactly
    the built request is dispatched, once, and the world is left as that one
    call of the transport left it. *)
Theorem requestAndDecode_one_attempt {T : Type} `{json.Unmarshaler T}
    (c : Client) (method urlStr : string) (data : Values) (v : T) (s : State) :
  match NewRequest c method urlStr (formBody data) with
  | Err e =>
      requestAndDecode c method urlStr data v s = (mkOutcome v (Some e) None, s)
  | Ok req =>
      snd (requestAndDecode c method urlStr data v s)
        = mkState (snd (httpClient c req (world s))) (sent s ++ [req])
  end.
Proof.
  unfold requestAndDecode.
  destruct (NewRequest c method urlStr (formBody data)) as [req|e]; [|reflexivity].
  unfold bind, Do, rawResponse. destruct (httpClient c req (world s)) as [[e|rp] w];
    [reflexivity|].
  cbn [RspBody StatusCode].
  match goal with |- context [let '(v', err) := ?X in _] => destruct X as [v' err] end.
  reflexivity.
Qed.

(** X8. When the transport fails, [requestAndDecode] returns the transport's
    error, leaves the target as it was, and has no response body to release. *)
Theorem requestAndDecode_transport_error {T : Type} `{json.Unmarshaler T}
    (c : Client) (method urlStr : string) (data : Values) (v : T) (s : State)
    (req : Request) (e : string) (w : World) :
  NewRequest c method urlStr (formBody data) = Ok req ->
  httpClient c req (world s) = (inl e, w) ->
  requestAndDecode c method urlStr data v s
    = (mkOutcome v (Some (transportError e)) None, mkState w (sent s ++ [req])).
Proof.
  intros Hreq Hdo. unfold requestAndDecode. rewrite Hreq.
  unfold bind, Do. rewrite Hdo. reflexivity.
Qed.


(** ** Runs of polls *)

Lemma PollTimes_S (n : nat) (pr : PollRequest) (s : State) :
  PollTimes (S n) pr s =
    (fst (fst (Poll pr s)) :: fst (fst (PollTimes n (snd (fst (Poll pr s))) (snd (Poll pr s)))),
     snd (fst (PollTimes n (snd (fst (Poll pr s))) (snd (Poll pr s)))),
     snd (PollTimes n (snd (fst (Poll pr s))) (snd (Poll pr s)))).
Proof.
  cbn [PollTimes]. unfold bind, ret.
  destruct (Poll pr s) as [[r1 pr1] s1]. cbn [fst snd].
  destruct (PollTimes n pr1 s1) as [[rs pr2] s2]. reflexivity.
Qed.

(** What one poll does to the poll request: nothing, or the header write. *)
Lemma Poll_held (pr : PollRequest) (s : State) :
  snd (fst (Poll pr s)) =
    mkPollRequest (pr_c pr)
      (let tag := nextTag EmptyString (fst (fst (Poll pr s))) in
       if String.eqb tag EmptyString then pr_req pr
       else withHeader (pr_req pr)
              (Hdr.Set_ (ReqHeader (pr_req pr)) "If-None-Match" tag)).
Proof.
  pose proof (Poll_cases pr s) as Hc.
  destruct (httpClient (pr_c pr) (pr_req pr) (world s)) as [[e|rp] w];
    rewrite Hc; cbn [fst snd nextTag rawResponse RspHeader String.eqb].
  - destruct pr; reflexivity.
  - destruct (String.eqb (Hdr.Get (headers rp) "ETag") EmptyString) eqn:E.
    + cbn [String.eqb]. destruct pr; reflexivity.
    + rewrite E. reflexivity.
Qed.

(** X10. A run of [n] polls makes [n] calls of the transport and returns [n]
    results; it never changes the client of the poll request, and of the held
    request it changes nothing but the header If-None-Match: method, URL,
    body and every other header are those of the request the poll request
    was created with. *)
Theorem PollTimes_invariant (n : nat) (pr : PollRequest) (s : State) :
  let run := PollTimes n pr s in
  length (fst (fst run)) = n
  /\ length (sent (snd run)) = (length (sent s) + n)%nat
  /\ pr_c (snd (fst run)) = pr_c pr
  /\ withHeader (pr_req (snd (fst run))) (ReqHeader (pr_req pr)) = pr_req pr
  /\ forall key,
       key <> "If-None-Match"%string ->
       ReqHeader (pr_req (snd (fst run))) !! key = ReqHeader (pr_req pr) !! key.
Proof.
  cbn zeta. revert pr s. induction n as [|n IH]; intros pr s.
  - cbn. repeat split; try lia. destruct (pr_req pr); reflexivity.
  - rewrite PollTimes_S. cbn [fst snd length].
    pose proof (Poll_held pr s) as Hh. pose proof (Poll_sent pr s) as Hp.
    set (p1 := snd (fst (Poll pr s))) in *. set (s1 := snd (Poll pr s)) in *.
    set (tag := nextTag EmptyString (fst (fst (Poll pr s)))) in *.
    assert (Hc1 : pr_c p1 = pr_c pr) by (rewrite Hh; reflexivity).
    assert (Hq : pr_req p1 =
                 if String.eqb tag EmptyString then pr_req pr
                 else withHeader (pr_req pr)
                        (Hdr.Set_ (ReqHeader (pr_req pr)) "If-None-Match" tag))
      by (rewrite Hh; reflexivity).
    clearbody p1 s1 tag. clear Hh.
    destruct (IH p1 s1) as (Hl & Hs & Hc & Hr & Hk). clear IH.
    rewrite Hp, length_app in Hs. cbn [length] in Hs.
    split; [lia|]. split; [lia|]. split; [congruence|].
    set (r := pr_req (snd (fst (PollTimes n p1 s1)))) in *. clearbody r.
    rewrite Hq in Hr, Hk. clear Hq.
    destruct (String.eqb tag EmptyString).
    + split; [exact Hr|exact Hk].
    + cbn [withHeader ReqHeader] in Hr, Hk. split.
      * destruct r as [m1 u1 h1 b1 l1 o1]. destruct (pr_req pr) as [m0 u0 h0 b0 l0 o0].
        cbn [withHeader Method ReqURL ReqHeader Body ContentLength ReqHost] in Hr |- *.
        injection Hr as -> -> -> -> ->. reflexivity.
      * intros key Hne. rewrite (Hk key Hne), lookup_Set.
        rewrite decide_False; [reflexivity|].
        change (textproto.CanonicalMIMEHeaderKey "If-None-Match") with "If-None-Match"%string.
        congruence.
Qed.

Lemma nextTag_nonempty (tag : string) (r : result Response) :
  nextTag tag r =
    if String.eqb (nextTag EmptyString r) EmptyString then tag else nextTag EmptyString r.
Proof.
  destruct r as [rsp|e]; cbn [nextTag]; [|reflexivity].
  destruct (String.eqb (Hdr.Get (RspHeader rsp) "ETag") EmptyString) eqn:E;
    [reflexivity|]. rewrite E. reflexivity.
Qed.

(** X11. After any run of polls the held request's If-None-Match is the most
    recent non-empty entity tag received in the run, or what it was before the
    run when no response brought one; errors and responses without tag do not
    count. *)
Theorem PollTimes_latest_tag (n : nat) (pr : PollRequest) (s : State) :
  Hdr.Get (ReqHeader (pr_req (snd (fst (PollTimes n pr s))))) "If-None-Match"
    = lastTag (Hdr.Get (ReqHeader (pr_req pr)) "If-None-Match") (fst (fst (PollTimes n pr s))).
Proof.
  revert pr s. induction n as [|n IH]; intros pr s; [reflexivity|].
  rewrite PollTimes_S. cbn [fst snd]. rewrite IH. unfold lastTag. cbn [fold_left].
  f_equal. pose proof (Poll_held pr s) as Hh.
  set (p1 := snd (fst (Poll pr s))) in *. rewrite Hh. cbn [pr_req]. clear Hh p1.
  rewrite (nextTag_nonempty (Hdr.Get _ _)).
  destruct (String.eqb (nextTag EmptyString (fst (fst (Poll pr s)))) EmptyString);
    [reflexivity|].
  cbn [withHeader ReqHeader]. apply Get_Set.
Qed.

(** ** Edge cases of decoding *)

Lemma readValue_blank (s : string) :
  json.skipSpace s = EmptyString -> json.readValue s = inr json.EOF.
Proof.
  intros Hs. unfold json.readValue.
  replace (2 * String.length s + 2)%nat with (S (2 * String.length s + 1)) by lia.
  cbn [json.scanValue]. unfold json.next. rewrite Hs. reflexivity.
Qed.

(** X12. A response whose body is empty or white space only makes
    [requestAndDecode] return [io.EOF], below status 400 as well as from 400
    on, for any target type; the target is left as it was. *)
Theorem requestAndDecode_empty_body {T : Type} `{json.Unmarshaler T}
    (c : Client) (method urlStr : string) (data : Values) (v : T) (s : State)
    (req : Request) (rp : Reply) (w : World) :
  NewRequest c method urlStr (formBody data) = Ok req ->
  httpClient c req (world s) = (inr rp, w) ->
  json.skipSpace (content rp) = EmptyString ->
  let out := fst (requestAndDecode c method urlStr data v s) in
  returned out = Some (jsonError json.EOF) /\ target out = v.
Proof.
  intros Hreq Hdo Hblank. cbn zeta.
  rewrite (requestAndDecode_response c method urlStr data v s req rp w Hreq Hdo).
  cbn [fst target returned]. unfold routed, json.Decode.
  rewrite (readValue_blank _ Hblank).
  destruct (status rp <? 400); split; reflexivity.
Qed.

Lemma storeMember_no_field (ms : list (string * json.value))
    (st : ApiError * option json.error) :
  Forall namesNoField ms -> fold_left storeMember ms st = st.
Proof.
  intros HF. revert st. induction HF as [|kv ms Hkv _ IH]; intros st; [reflexivity|].
  cbn [fold_left]. unfold storeMember at 2. unfold namesNoField in Hkv. rewrite Hkv.
  apply IH.
Qed.


(** ** Forms and default headers *)

Lemma Encode_no_values (data : Values) :
  (forall k vs, data !! k = Some vs -> vs = []) -> url.Encode data = EmptyString.
Proof.
  intros Hall. unfold url.Encode.
  generalize (url.sortedKeys data). intros keys.
  induction keys as [|k keys IH]; [reflexivity|].
  cbn [fold_left]. destruct (data !! k) as [vs|] eqn:E.
  - rewrite (Hall k vs E). exact IH.
  - exact IH.
Qed.

(** X14. A form with keys but no value under any of them still gives the
    request a body: an empty one, of length zero. A client made by
    [newClient] then sends a Content-Type header with it. *)
Theorem requestAndDecode_form_without_values
    (h : HttpClient) (mods : list requestModifier)
    (method urlStr : string) (data : Values) (req : Request) :
  data <> ∅ ->
  (forall k vs, data !! k = Some vs -> vs = []) ->
  NewRequest (newClient h mods) method urlStr (formBody data) = Ok req ->
  formBody data = Some EmptyString
  /\ Body req = Some EmptyString
  /\ ContentLength req = 0
  /\ exists ct, ReqHeader req !! "Content-Type"%string = Some [ct].
Proof.
  intros Hne Hall Hreq.
  assert (Hf : formBody data = Some EmptyString)
    by (rewrite (formBody_nonempty data Hne), (Encode_no_values data Hall); reflexivity).
  rewrite Hf in Hreq. split; [exact Hf|].
  unfold NewRequest in Hreq.
  destruct (http_NewRequest method urlStr (Some EmptyString)) as [req0|e] eqn:E;
    [|discriminate].
  assert (Hreq' : req = applyAll (reqMods (newClient h mods)) req0) by congruence.
  subst req. clear Hreq.
  pose proof (applyAll_frame (reqMods (newClient h mods)) req0) as [Hfr _].
  pose proof (f_equal ContentLength Hfr) as Hl.
  cbn [ContentLength withURL withHeader] in Hl.
  pose proof (http_NewRequest_fresh _ _ _ _ E) as [Hh Hb].
  split; [exact (eq_trans (applyAll_Body _ req0) Hb)|]. split.
  - rewrite Hl. unfold http_NewRequest in E. destruct (validMethod _); [|discriminate].
    destruct (url_Parse urlStr); [discriminate|]. injection E as <-. reflexivity.
  - rewrite applyAll_header, Hb. cbn [hasBody reqMods newClient app omap list_omap
                                       defaultDateFormat defaultContentType headerWrite
                                       lastWriter].
    destruct (lastWriter "Content-Type" _) as [ct|]; eexists; reflexivity.
Qed.

Lemma lastWriter_DateFormat (mods : list requestModifier) (withBody : bool) (d : string) :
  lastWriter "X-Accept-Datetime-Format" (omap (headerWrite withBody) mods) = Some d ->
  In (DateFormat d) mods.
Proof.
  induction mods as [|m mods IH]; [discriminate|].
  cbn [omap list_omap].
  destruct m as [a|e|d'|c]; cbn [headerWrite lastWriter].
  - destruct (lastWriter _ _); [intros Hd; right; exact (IH Hd)|]. discriminate.
  - intros Hd. right. exact (IH Hd).
  - destruct (lastWriter _ _); [intros Hd; right; exact (IH Hd)|].
    cbn. intros [= <-]. left. reflexivity.
  - destruct withBody; cbn [lastWriter]; [|intros Hd; right; exact (IH Hd)].
    destruct (lastWriter _ _); [intros Hd; right; exact (IH Hd)|]. discriminate.
Qed.

(** X15. Every request built by a client made by [newClient] declares a date
    format: UNIX, or the one of a [DateFormat] among the caller's modifiers.
    The caller can replace the default and cannot remove it. *)
Theorem newClient_date_format
    (h : HttpClient) (mods : list requestModifier)
    (method urlStr : string) (b : option string) (req : Request) :
  NewRequest (newClient h mods) method urlStr b = Ok req ->
  exists d,
    ReqHeader req !! "X-Accept-Datetime-Format"%string = Some [d]
    /\ Hdr.Get (ReqHeader req) "X-Accept-Datetime-Format" = d
    /\ (d = "UNIX"%string \/ In (DateFormat d) mods).
Proof.
  intros Hreq. unfold NewRequest in Hreq.
  destruct (http_NewRequest method urlStr b) as [req0|e] eqn:E; [|discriminate].
  assert (Hreq' : req = applyAll (reqMods (newClient h mods)) req0) by congruence.
  subst req. clear Hreq.
  pose proof (http_NewRequest_fresh _ _ _ _ E) as [Hh Hb].
  assert (Hl : exists d,
             ReqHeader (applyAll (reqMods (newClient h mods)) req0)
               !! "X-Accept-Datetime-Format"%string = Some [d]
             /\ (d = "UNIX"%string \/ In (DateFormat d) mods)).
  { rewrite applyAll_header, Hb.
    cbn [reqMods newClient app omap list_omap defaultDateFormat defaultContentType
         headerWrite].
    destruct (hasBody b); cbn [lastWriter];
      destruct (lastWriter "X-Accept-Datetime-Format" (omap _ mods)) as [d|] eqn:El.
    - exists d. split; [reflexivity|]. right. exact (lastWriter_DateFormat _ _ _ El).
    - exists "UNIX"%string. split; [reflexivity|]. left. reflexivity.
    - exists d. split; [reflexivity|]. right. exact (lastWriter_DateFormat _ _ _ El).
    - exists "UNIX"%string. split; [reflexivity|]. left. reflexivity. }
  destruct Hl as (d & Hd & Hor). exists d. split; [exact Hd|]. split; [|exact Hor].
  unfold Hdr.Get.
  change (textproto.CanonicalMIMEHeaderKey "X-Accept-Datetime-Format")
    with "X-Accept-Datetime-Format"%string.
  rewrite Hd. reflexivity.
Qed.

(** ** What a constructed client sends *)

Lemma NewRequest_parsed (c : Client) (method urlStr : string) (b : option string)
    (req : Request) :
  NewRequest c method urlStr b = Ok req -> exists u, url_Parse urlStr = inr u.
Proof.
  unfold NewRequest, http_NewRequest. destruct (validMethod _); [|discriminate].
  destruct (url_Parse urlStr) as [e|u]; [discriminate|]. intros _. exists u. reflexivity.
Qed.

(** X16. Whatever [requestAndDecode] dispatches for a client made by
    [NewClient] goes out over https, to a host that is not empty, with
    Authorization: Bearer <token> and the UNIX date format; and it dispatches
    at most one request. *)
Theorem requestAndDecode_authorized {T : Type} `{json.Unmarshaler T}
    (environment token : string) (h : option HttpClient) (c : Client)
    (method urlStr : string) (data : Values) (v : T) (s : State) :
  NewClient environment token h = Ok c ->
  exists new,
    sent (snd (requestAndDecode c method urlStr data v s)) = sent s ++ new
    /\ (length new <= 1)%nat
    /\ Forall (fun req =>
                 Scheme (ReqURL req) = "https"%string
                 /\ Host (ReqURL req) <> EmptyString
                 /\ Hdr.Get (ReqHeader req) "Authorization" = "Bearer " +:+ token
                 /\ Hdr.Get (ReqHeader req) "X-Accept-Datetime-Format" = "UNIX"%string)
              new.
Proof.
  intros Hc. pose proof (requestAndDecode_one_attempt c method urlStr data v s) as Hone.
  destruct (NewRequest c method urlStr (formBody data)) as [req|e] eqn:E.
  - exists [req]. rewrite Hone. cbn [sent length]. split; [reflexivity|]. split; [lia|].
    constructor; [|constructor].
    destruct (NewRequest_parsed _ _ _ _ _ E) as [u Hu].
    rewrite (NewClient_request environment token h c method urlStr (formBody data) u req
               Hc Hu E).
    cbn [ReqURL Scheme Host ReqHeader]. split; [reflexivity|]. split.
    + destruct (String.eqb_spec (Host u) EmptyString) as [_|Hne]; [|exact Hne].
      cbn. discriminate.
    + unfold Hdr.Get.
      change (textproto.CanonicalMIMEHeaderKey "Authorization") with "Authorization"%string.
      change (textproto.CanonicalMIMEHeaderKey "X-Accept-Datetime-Format")
        with "X-Accept-Datetime-Format"%string.
      rewrite lookup_insert_eq. split; [reflexivity|].
      rewrite lookup_insert_ne by discriminate.
      destruct (formBody data).
      * rewrite lookup_insert_ne by discriminate. rewrite lookup_insert_eq. reflexivity.
      * rewrite lookup_insert_eq. reflexivity.
  - exists []. rewrite Hone. cbn [snd length]. rewrite app_nil_r.
    split; [reflexivity|]. split; [lia|]. constructor.
Qed.

Lemma storeMember_keeps_error (ms : list (string * json.value)) (a : ApiError)
    (e : json.error) :
  snd (fold_left storeMember ms (a, Some e)) = Some e.
Proof.
  revert a. induction ms as [|kv ms IH]; intros a; [reflexivity|].
  cbn [fold_left]. unfold storeMember at 2.
  destruct (json.findField apiFieldName [fCode; fMessage; fMoreInfo] (fst kv)) as [f|];
    [|apply IH].
  cbn [fst snd]. destruct (storeField f (snd kv) a) as [a' e']. cbn [json.saveError].
  apply IH.
Qed.


End Pipeline.

(** * The pipeline on the scripted transport *)

Arguments mkClient {World} _ _ _.
Arguments reqMods {World} _.
Arguments httpClient {World} _.
Arguments newClient {World} _ _.
Arguments NewClient {World} _ _ _ _.
Arguments NewRequest {World} _ _ _ _ _.
Arguments mkState {World} _ _.
Arguments world {World} _.
Arguments sent {World} _.
Arguments mkPollRequest {World} _ _.
Arguments pr_c {World} _.
Arguments pr_req {World} _.
Arguments Poll {World} _ _.
Arguments PollTimes {World} _ _ _.
Arguments requestAndDecode {World} _ _ _ {T _} _ _ _ _ _ _.
Arguments mkOutcome {T} _ _ _.
Arguments target {T} _.
Arguments returned {T} _.
Arguments body {T} _.

(** A practice client over the scripted transport, the request it builds for
    a path, and a poll request holding the request for some candles. *)
Local Abbreviation Script := (list (string + Reply)).

Local Abbreviation demoClient :=
  (newClient scripted [Environment "fxpractice"; TokenAuthenticator "t0k3n"]).

Local Abbreviation demoRequest path :=
  (applyAll (reqMods demoClient)
     (mkRequest "GET" (mkURL EmptyString EmptyString None EmptyString path
                         EmptyString EmptyString)
        ∅ None 0 EmptyString)).

Local Abbreviation demoPoll := (mkPollRequest demoClient (demoRequest "/v1/candles")).

Local Abbreviation untouched := (mkApiError 7 "kept" "kept").

Example demoRequest_built :
  NewRequest pathOnly demoClient "GET" "/v1/candles" None = Ok (demoRequest "/v1/candles")
  /\ Scheme (ReqURL (demoRequest "/v1/candles")) = "https"%string
  /\ Host (ReqURL (demoRequest "/v1/candles")) = "api-fxpractice.oanda.com"%string
  /\ Hdr.Get (ReqHeader (demoRequest "/v1/candles")) "Authorization" = "Bearer t0k3n"%string
  /\ Hdr.Get (ReqHeader (demoRequest "/v1/candles")) "X-Accept-Datetime-Format" = "UNIX"%string
  /\ ReqHeader (demoRequest "/v1/candles") !! "Content-Type"%string = None
  /\ ReqHeader (demoRequest "/v1/candles") !! "If-None-Match"%string = None.
Proof. vm_compute. repeat split. Qed.

(** A form of three parameters is sent as one sorted, escaped line, with the
    default content type. *)
Example requestAndDecode_form_example :
  let data : Values :=
    <["units"%string := ["2"%string]]>
      (<["side"%string := ["buy"%string]]>
         (<["instrument"%string := ["eur usd"%string]]> ∅)) in
  exists req,
    sent (snd (requestAndDecode pathOnly EmptyString readsAll demoClient "POST" "/v1/orders"
                 data untouched (mkState [inr (taggedReply "v1")] [])))
      = [req]
    /\ Body req = Some "instrument=eur+usd&side=buy&units=2"%string
    /\ Hdr.Get (ReqHeader req) "Content-Type" = "application/x-www-form-urlencoded"%string.
Proof. eexists. vm_compute. repeat split. Qed.

(** Witness of C1, on a call whose target is an [ApiError] already holding
    values: a reply with status 400 and the error body leaves the target and
    returns the decoded error; a reply with status 200 and the body [{}] is
    decoded into the target (which an empty object leaves as it is) and
    returns no error. *)
Lemma requestAndDecode_status_branches_witness :
  let failed :=
    fst (requestAndDecode pathOnly EmptyString readsAll demoClient "GET" "/v1/accounts" ∅
           untouched (mkState [inr badRequestReply] [])) in
  let passed :=
    fst (requestAndDecode pathOnly EmptyString readsAll demoClient "GET" "/v1/accounts" ∅
           untouched (mkState [inr (taggedReply "v1")] [])) in
  (target failed = untouched
   /\ returned failed = Some (apiError (mkApiError 1 "bad" "see docs")))
  /\ (target passed = untouched /\ returned passed = None).
Proof.
  assert (H1 : NewRequest pathOnly demoClient "GET" "/v1/accounts" (formBody ∅)
               = Ok (demoRequest "/v1/accounts")) by (vm_compute; reflexivity).
  assert (H2 : httpClient demoClient (demoRequest "/v1/accounts")
                 (world (mkState [inr badRequestReply] []))
               = (inr badRequestReply, [])) by reflexivity.
  assert (H3 : httpClient demoClient (demoRequest "/v1/accounts")
                 (world (mkState [inr (taggedReply "v1")] []))
               = (inr (taggedReply "v1"), [])) by reflexivity.
  split.
  - pose proof (requestAndDecode_status_branches Script pathOnly EmptyString
                  readsAll demoClient "GET" "/v1/accounts" ∅ untouched
                  (mkState [inr badRequestReply] []) (demoRequest "/v1/accounts")
                  badRequestReply [] H1 H2) as [_ Hb].
    destruct Hb as [Ht Hr]; [vm_compute; discriminate|].
    split; [exact Ht | exact Hr].
  - pose proof (requestAndDecode_status_branches Script pathOnly EmptyString
                  readsAll demoClient "GET" "/v1/accounts" ∅ untouched
                  (mkState [inr (taggedReply "v1")] []) (demoRequest "/v1/accounts")
                  (taggedReply "v1") [] H1 H3) as [Ha _].
    destruct Ha as (Ht & Hr & _); [reflexivity|].
    split; [exact Ht | exact Hr].
Defined.

(** An error body that is no JSON: the decoder's error is what comes back. *)
Example requestAndDecode_error_body_undecodable :
  returned (fst (requestAndDecode pathOnly EmptyString readsAll demoClient "GET"
                   "/v1/accounts" ∅ untouched
                   (mkState [inr (mkReply 502 ∅ "<html>Bad Gateway</html>")] [])))
    = Some (jsonError json.SyntaxError).
Proof. vm_compute. reflexivity. Qed.

(** Witness of C6: a decoder that has read nothing ahead of the value, on a
    success reply and, with tracing on, on a failure reply. *)
Lemma requestAndDecode_closes_body_witness :
  body (fst (requestAndDecode pathOnly EmptyString (fun _ => 0%nat) demoClient "GET"
               "/v1/accounts" ∅ untouched (mkState [inr (taggedReply "v1")] [])))
    = Some (mkReadCloser EmptyString true)
  /\ body (fst (requestAndDecode pathOnly "trace" (fun _ => 0%nat) demoClient "GET"
               "/v1/accounts" ∅ untouched (mkState [inr badRequestReply] [])))
    = Some (mkReadCloser EmptyString true).
Proof.
  assert (H1 : NewRequest pathOnly demoClient "GET" "/v1/accounts" (formBody ∅)
               = Ok (demoRequest "/v1/accounts")) by (vm_compute; reflexivity).
  assert (H2 : httpClient demoClient (demoRequest "/v1/accounts")
                 (world (mkState [inr (taggedReply "v1")] []))
               = (inr (taggedReply "v1"), [])) by reflexivity.
  assert (H3 : httpClient demoClient (demoRequest "/v1/accounts")
                 (world (mkState [inr badRequestReply] []))
               = (inr badRequestReply, [])) by reflexivity.
  split.
  - exact (requestAndDecode_closes_body Script pathOnly EmptyString (fun _ => 0%nat)
             demoClient "GET" "/v1/accounts" ∅ untouched
             (mkState [inr (taggedReply "v1")] []) (demoRequest "/v1/accounts")
             (taggedReply "v1") [] H1 H2).
  - exact (requestAndDecode_closes_body Script pathOnly "trace" (fun _ => 0%nat)
             demoClient "GET" "/v1/accounts" ∅ untouched
             (mkState [inr badRequestReply] []) (demoRequest "/v1/accounts")
             badRequestReply [] H1 H3).
Defined.

(** Witness of C7. *)
Lemma requestAndDecode_bad_request_witness :
  let out :=
    fst (requestAndDecode pathOnly EmptyString readsAll demoClient "GET" "/v1/accounts" ∅
           untouched (mkState [inr badRequestReply] [])) in
  exists ae : ApiError,
    returned out = Some (apiError ae)
    /\ ae = mkApiError 1 "bad" "see docs"
    /\ ApiError_Error ae = "ApiError{Code: 1, Message: bad, Moreinfo: see docs}"%string
    /\ target out = untouched.
Proof.
  assert (H1 : NewRequest pathOnly demoClient "GET" "/v1/accounts" (formBody ∅)
               = Ok (demoRequest "/v1/accounts")) by (vm_compute; reflexivity).
  assert (H2 : httpClient demoClient (demoRequest "/v1/accounts")
                 (world (mkState [inr badRequestReply] []))
               = (inr badRequestReply, [])) by reflexivity.
  exact (requestAndDecode_bad_request Script pathOnly EmptyString readsAll demoClient
           "GET" "/v1/accounts" ∅ untouched (mkState [inr badRequestReply] [])
           (demoRequest "/v1/accounts") badRequestReply [] H1 H2 eq_refl eq_refl).
Defined.

(** Witness of C3: the first reply carries the entity tag v1, and the second
    poll sends it back. *)
Lemma Poll_conditional_header_witness :
  exists req2,
    sent (snd (PollTimes 2 demoPoll
                 (mkState [inr (taggedReply "v1"); inr notModifiedReply] [])))
      = [demoRequest "/v1/candles"; req2]
    /\ Hdr.Get (ReqHeader req2) "If-None-Match" = "v1"%string.
Proof.
  destruct (Poll_conditional_header Script demoPoll
              (mkState [inr (taggedReply "v1"); inr notModifiedReply] []))
    as [H2 _].
  destruct (H2 (rawResponse (taggedReply "v1")) (rawResponse notModifiedReply)
              ltac:(vm_compute; reflexivity) ltac:(vm_compute; reflexivity)) as (req2 & Hsent & Htag & _).
  exists req2. split.
  - exact Hsent.
  - destruct Htag as [Hget _]; [vm_compute; discriminate|]. exact Hget.
Defined.

(** Counterexample to C3 as stated. After a poll that stored the entity tag
    v1, the next response carries no entity tag, and yet the call after it
    sends If-None-Match: v1. *)
Lemma Poll_no_entity_tag_counterexample :
  ~ (forall (pr : PollRequest Script) (s : State Script) (rsp1 rsp2 : Response) (req2 : Request),
       fst (fst (Poll pr s)) = Ok rsp1 ->
       fst (fst (Poll (snd (fst (Poll pr s))) (snd (Poll pr s)))) = Ok rsp2 ->
       Hdr.Get (RspHeader rsp1) "ETag" = EmptyString ->
       last (sent (snd (Poll (snd (fst (Poll pr s))) (snd (Poll pr s))))) = Some req2 ->
       ReqHeader req2 !! "If-None-Match"%string = None).
Proof.
  intros Hclaim.
  pose (first := Poll demoPoll
                   (mkState [inr (taggedReply "v1"); inr notModifiedReply;
                             inr notModifiedReply] [])).
  specialize (Hclaim (snd (fst first)) (snd first)
                (rawResponse notModifiedReply) (rawResponse notModifiedReply)
                (withHeader (demoRequest "/v1/candles")
                   (<["If-None-Match"%string := ["v1"%string]]>
                      (ReqHeader (demoRequest "/v1/candles"))))
                ltac:(vm_compute; reflexivity) ltac:(vm_compute; reflexivity) ltac:(vm_compute; reflexivity) ltac:(vm_compute; reflexivity)).
  vm_compute in Hclaim. discriminate Hclaim.
Qed.

(** Witness of C10: the entity tag v1 stored by the first poll is sent by the
    three polls after it, none of which brings a tag, the last one failing in
    the transport. *)
Lemma Poll_frame_witness :
  let first := Poll demoPoll
                 (mkState [inr (taggedReply "v1"); inr notModifiedReply;
                           inr notModifiedReply; inl "connection reset"%string] []) in
  let held := pr_req (snd (fst first)) in
  Hdr.Get (ReqHeader held) "If-None-Match" = "v1"%string
  /\ snd (fst (PollTimes 3 (snd (fst first)) (snd first))) = snd (fst first)
  /\ sent (snd (PollTimes 3 (snd (fst first)) (snd first)))
     = [demoRequest "/v1/candles"; held; held; held].
Proof.
  cbn zeta. split; [reflexivity|].
  destruct (Poll_frame Script
              (snd (fst (Poll demoPoll
                 (mkState [inr (taggedReply "v1"); inr notModifiedReply;
                           inr notModifiedReply; inl "connection reset"%string] []))))
              (snd (Poll demoPoll
                 (mkState [inr (taggedReply "v1"); inr notModifiedReply;
                           inr notModifiedReply; inl "connection reset"%string] []))))
    as (_ & _ & _ & Hn).
  apply (Hn 3%nat). vm_compute. repeat constructor.
Defined.

(** * More of the pipeline on the scripted transport *)

Arguments getAndDecode {World} _ _ _ {T _} _ _ _ _.

Local Abbreviation tradeClient :=
  (newClient scripted [Environment "fxtrade"; TokenAuthenticator "t0k3n"]).

Local Abbreviation goneBody :=
  ("{" +:+ quote "error" +:+ ":" +:+ quote "gone" +:+ "}").

Local Abbreviation quotedCodeBody :=
  ("{" +:+ quote "code" +:+ ":" +:+ quote "1" +:+ "," +:+ quote "message" +:+ ":"
     +:+ quote "bad" +:+ "}").

(** Witness of X1: a token and a content type on a request with a body. *)
Lemma modify_commute_witness :
  let req := mkRequest "POST" (mkURL EmptyString EmptyString None EmptyString "/v1/orders"
                                 EmptyString EmptyString)
               ∅ (Some "units=2"%string) 7 EmptyString in
  modify (TokenAuthenticator "t0k3n") (modify (ContentType "application/json") req)
    = modify (ContentType "application/json") (modify (TokenAuthenticator "t0k3n") req).
Proof.
  exact (modify_commute (TokenAuthenticator "t0k3n") (ContentType "application/json")
           _ eq_refl).
Defined.

(** Witness of X6: an order posted by a live-trading client. *)
Lemma NewClient_request_witness :
  applyAll (reqMods tradeClient)
    (mkRequest "POST" (mkURL EmptyString EmptyString None EmptyString "/v1/orders"
                         EmptyString EmptyString)
       ∅ (Some "units=2"%string) 7 EmptyString)
  = mkRequest "POST"
      (mkURL "https" EmptyString None "api-fxtrade.oanda.com" "/v1/orders"
         EmptyString EmptyString)
      (<["Authorization"%string := ["Bearer t0k3n"%string]]>
         (<["Content-Type"%string := ["application/x-www-form-urlencoded"%string]]>
            (<["X-Accept-Datetime-Format"%string := ["UNIX"%string]]> ∅)))
      (Some "units=2"%string) 7 EmptyString.
Proof.
  assert (H1 : NewClient (World := Script) scripted "fxtrade" "t0k3n" None = Ok tradeClient)
    by reflexivity.
  assert (H2 : pathOnly "/v1/orders"
               = inr (mkURL EmptyString EmptyString None EmptyString "/v1/orders"
                        EmptyString EmptyString)) by reflexivity.
  assert (H3 : NewRequest pathOnly tradeClient "POST" "/v1/orders" (Some "units=2"%string)
               = Ok (applyAll (reqMods tradeClient)
                       (mkRequest "POST"
                          (mkURL EmptyString EmptyString None EmptyString "/v1/orders"
                             EmptyString EmptyString)
                          ∅ (Some "units=2"%string) 7 EmptyString)))
    by (vm_compute; reflexivity).
  exact (NewClient_request Script pathOnly scripted "fxtrade" "t0k3n" None tradeClient
           "POST" "/v1/orders" (Some "units=2"%string) _ _ H1 H2 H3).
Defined.

(** Witness of X8: the transport fails. *)
Lemma requestAndDecode_transport_error_witness :
  requestAndDecode pathOnly EmptyString readsAll demoClient "GET" "/v1/accounts" ∅
    untouched (mkState [inl "dial tcp: i/o timeout"%string] [])
  = (mkOutcome untouched (Some (transportError "dial tcp: i/o timeout")) None,
     mkState [] [demoRequest "/v1/accounts"]).
Proof.
  assert (H1 : NewRequest pathOnly demoClient "GET" "/v1/accounts" (formBody ∅)
               = Ok (demoRequest "/v1/accounts")) by (vm_compute; reflexivity).
  assert (H2 : httpClient demoClient (demoRequest "/v1/accounts")
                 (world (mkState [inl "dial tcp: i/o timeout"%string] []))
               = (inl "dial tcp: i/o timeout"%string, [])) by reflexivity.
  exact (requestAndDecode_transport_error Script pathOnly EmptyString readsAll demoClient
           "GET" "/v1/accounts" ∅ untouched _ _ _ _ H1 H2).
Defined.


(** Witness of X12: a 304 reply has no body. *)
Lemma requestAndDecode_empty_body_witness :
  let out :=
    fst (requestAndDecode pathOnly EmptyString readsAll demoClient "GET" "/v1/accounts" ∅
           untouched (mkState [inr notModifiedReply] [])) in
  returned out = Some (jsonError json.EOF) /\ target out = untouched.
Proof.
  assert (H1 : NewRequest pathOnly demoClient "GET" "/v1/accounts" (formBody ∅)
               = Ok (demoRequest "/v1/accounts")) by (vm_compute; reflexivity).
  assert (H2 : httpClient demoClient (demoRequest "/v1/accounts")
                 (world (mkState [inr notModifiedReply] []))
               = (inr notModifiedReply, [])) by reflexivity.
  exact (requestAndDecode_empty_body Script pathOnly EmptyString readsAll demoClient
           "GET" "/v1/accounts" ∅ untouched _ _ _ _ H1 H2 eq_refl).
Defined.


(** Witness of X14: the form with the key units and no value. *)
Lemma requestAndDecode_form_without_values_witness :
  let data : Values := {["units"%string := []]} in
  exists req,
    NewRequest pathOnly demoClient "POST" "/v1/orders" (formBody data) = Ok req
    /\ formBody data = Some EmptyString
    /\ Body req = Some EmptyString
    /\ ContentLength req = 0
    /\ exists ct, ReqHeader req !! "Content-Type"%string = Some [ct].
Proof.
  cbn zeta.
  assert (H1 : ({["units"%string := []]} : Values) <> ∅)
    by (apply insert_non_empty).
  assert (H2 : forall k vs, ({["units"%string := []]} : Values) !! k = Some vs -> vs = []).
  { intros k vs Hk. apply lookup_singleton_Some in Hk as [_ <-]. reflexivity. }
  eexists. split; [vm_compute; reflexivity|].
  eapply (requestAndDecode_form_without_values Script pathOnly scripted
            [Environment "fxpractice"; TokenAuthenticator "t0k3n"] "POST" "/v1/orders"
            {["units"%string := []]} _ H1 H2).
  vm_compute. reflexivity.
Defined.

(** Witness of X15: the caller asks for RFC3339 dates. *)
Lemma newClient_date_format_witness :
  exists d,
    ReqHeader (applyAll (reqMods (newClient scripted [DateFormat "RFC3339"]))
                 (mkRequest "GET" (mkURL EmptyString EmptyString None EmptyString
                                     "/v1/candles" EmptyString EmptyString)
                    ∅ None 0 EmptyString))
      !! "X-Accept-Datetime-Format"%string = Some [d]
    /\ Hdr.Get (ReqHeader (applyAll (reqMods (newClient scripted [DateFormat "RFC3339"]))
                 (mkRequest "GET" (mkURL EmptyString EmptyString None EmptyString
                                     "/v1/candles" EmptyString EmptyString)
                    ∅ None 0 EmptyString)))
         "X-Accept-Datetime-Format" = d
    /\ (d = "UNIX"%string \/ In (DateFormat d) [DateFormat "RFC3339"]).
Proof.
  assert (H1 : NewRequest pathOnly (newClient (World := Script) scripted [DateFormat "RFC3339"])
                 "GET" "/v1/candles" None
               = Ok (applyAll (reqMods (newClient scripted [DateFormat "RFC3339"]))
                       (mkRequest "GET" (mkURL EmptyString EmptyString None EmptyString
                                           "/v1/candles" EmptyString EmptyString)
                          ∅ None 0 EmptyString)))
    by (vm_compute; reflexivity).
  exact (newClient_date_format Script pathOnly scripted [DateFormat "RFC3339"]
           "GET" "/v1/candles" None _ H1).
Defined.

(** Witness of X16. *)
Lemma requestAndDecode_authorized_witness :
  exists new,
    sent (snd (requestAndDecode pathOnly EmptyString readsAll demoClient "GET"
                 "/v1/accounts" ∅ untouched (mkState [inr (taggedReply "v1")] [])))
      = [] ++ new
    /\ (length new <= 1)%nat
    /\ Forall (fun req =>
                 Scheme (ReqURL req) = "https"%string
                 /\ Host (ReqURL req) <> EmptyString
                 /\ Hdr.Get (ReqHeader req) "Authorization" = "Bearer " +:+ "t0k3n"
                 /\ Hdr.Get (ReqHeader req) "X-Accept-Datetime-Format" = "UNIX"%string)
              new.
Proof.
  assert (H1 : NewClient (World := Script) scripted "fxpractice" "t0k3n" None = Ok demoClient)
    by reflexivity.
  exact (requestAndDecode_authorized Script pathOnly EmptyString readsAll scripted
           "fxpractice" "t0k3n" None demoClient "GET" "/v1/accounts" ∅ untouched
           (mkState [inr (taggedReply "v1")] []) H1).
Defined.

